(** * Watchers: filename sanitisation and the orchestrator's lifecycle engine

    A shallow embedding of [watchers/base_watcher.py] and
    [watchers/orchestrator.py].

    Python values are represented as follows.
    - A [str] is a sequence of Unicode code points: [list N].
    - A dict with a fixed set of keys is a record.
    - A directory is a finite map from entry names to entries.
    - Code that performs I/O runs in a state-and-exception monad over a
      [world]; an exception leaves every effect performed before it in place. *)

From stdpp Require Import gmap strings list fin_maps pretty.
From Stdlib Require Import NArith Ascii Lia.

Open Scope N_scope.

(** ** Python strings *)

Abbreviation str := (list N).

(** An ASCII literal as a Python string. *)
Fixpoint py (s : string) : str :=
  match s with
  | EmptyString => []
  | String a s' => N_of_ascii a :: py s'
  end.

Global Arguments py : simpl never.

(** [str.isspace] on one code point, the test used by [str.strip()]:
    the characters whose bidirectional class is WS, B or S, or whose general
    category is Zs. *)
Definition isspace (c : N) : bool :=
  ((0x09 <=? c) && (c <=? 0x0D)) || ((0x1C <=? c) && (c <=? 0x20))
  || (c =? 0x85) || (c =? 0xA0) || (c =? 0x1680)
  || ((0x2000 <=? c) && (c <=? 0x200A))
  || (c =? 0x2028) || (c =? 0x2029) || (c =? 0x202F) || (c =? 0x205F)
  || (c =? 0x3000).

Fixpoint lstrip (s : str) : str :=
  match s with
  | [] => []
  | c :: t => if isspace c then lstrip t else s
  end.

Definition rstrip (s : str) : str := rev (lstrip (rev s)).

(** [s.strip()] *)
Definition strip (s : str) : str := rstrip (lstrip s).

(** A string is trimmed when neither end is a whitespace character. *)
Definition trimmed (s : str) : Prop := lstrip s = s ∧ lstrip (rev s) = rev s.

(** [s.replace(old, new)] where [old] and [new] are one character long. *)
Definition replace (old new : N) (s : str) : str :=
  map (fun c => if c =? old then new else c) s.

Module BaseWatcher.

(** ['_'] *)
Definition underscore : N := 95.

(** The literal [invalid_chars] of [sanitize_filename], in source order:
    [<], [>], [:], the double quote, [/], the backslash, [|],
    U+FF1F FULLWIDTH QUESTION MARK, and the asterisk. *)
Definition invalid_chars : str :=
  [60; 62; 58; 34; 47; 92; 124; 0xFF1F; 42].

(** [for char in invalid_chars: name = name.replace(char, '_')]
    followed by [return name.strip()]. *)
Definition sanitize_filename (name : str) : str :=
  strip (fold_left (fun name char => replace char underscore name)
                   invalid_chars name).

(** The characters of [invalid_chars] other than the question mark. *)
Definition reserved_chars : str := [60; 62; 58; 34; 47; 92; 124; 42].

(** ['?'] and its full-width form. *)
Definition question_mark : N := 63.
Definition fullwidth_question_mark : N := 0xFF1F.

(** What a loop of replacements over the characters [cs] does to one
    character. *)
Definition clean (cs : str) (c : N) : N :=
  if bool_decide (c ∈ cs) then underscore else c.

(** The sanitisation as the specification words it: the nine characters
    [<], [>], [:], the double quote, [/], the backslash, [|], [?] and the
    asterisk, and the full-width form of each (the ASCII code plus 0xFEE0),
    become an underscore, then the result is trimmed. *)
Definition spec_chars : str :=
  let ascii := [60; 62; 58; 34; 47; 92; 124; 63; 42] in
  ascii ++ map (fun c => c + 0xFEE0) ascii.

Definition spec_sanitize_filename (name : str) : str :=
  strip (map (clean spec_chars) name).

End BaseWatcher.

(** [str(n)] for a non-negative integer. *)
Definition str_of_N (n : N) : str := py (pretty n).
Definition str_of_nat (n : nat) : str := str_of_N (N.of_nat n).

(** [s.zfill(width)]: what the [%02d]-like fields of [strftime] and
    [isoformat] do to a non-negative number. *)
Definition zfill (width : nat) (s : str) : str :=
  List.repeat 48 (width - length s) ++ s.

(** [s.rfind(c)] for one character [c]; [None] stands for [-1]. *)
Fixpoint rfind (c : N) (s : str) : option nat :=
  match s with
  | [] => None
  | x :: t =>
      match rfind c t with
      | Some i => Some (S i)
      | None => if x =? c then Some O else None
      end
  end.

(** [s.endswith(suffix)] *)
Definition endswith (suffix s : str) : bool :=
  bool_decide (drop (length s - length suffix) s = suffix).

(** ** Path names

    [PurePath.stem]: the final component without its last suffix; a leading
    or a trailing dot does not start a suffix. *)
Definition stem (name : str) : str :=
  match rfind 46 name with
  | Some i => if bool_decide (0 < i < length name - 1)%nat then take i name
              else name
  | None => name
  end.

(** ** Dates and times: [datetime.datetime] *)

Record datetime := mk_datetime {
  year : N; month : N; day : N;
  hour : N; minute : N; second : N; microsecond : N
}.

(** [t.date()] *)
Definition date (t : datetime) : N * N * N := (year t, month t, day t).

(** [t.strftime("%Y-%m-%d")] *)
Definition strftime_Ymd (t : datetime) : str :=
  zfill 4 (str_of_N (year t)) ++ py "-" ++ zfill 2 (str_of_N (month t))
  ++ py "-" ++ zfill 2 (str_of_N (day t)).

(** [t.strftime("%H:%M:%S")] *)
Definition strftime_HMS (t : datetime) : str :=
  zfill 2 (str_of_N (hour t)) ++ py ":" ++ zfill 2 (str_of_N (minute t))
  ++ py ":" ++ zfill 2 (str_of_N (second t)).

(** [t.isoformat()] of a naive datetime. *)
Definition isoformat (t : datetime) : str :=
  strftime_Ymd t ++ py "T" ++ strftime_HMS t
  ++ (if microsecond t =? 0 then []
      else py "." ++ zfill 6 (str_of_N (microsecond t))).

(** ** Files and directories *)

(** The dict built by [_log_action]. *)
Record log_entry := mk_log_entry {
  le_timestamp : str;
  le_action_type : str;
  le_actor : str;
  le_target : str;
  le_result : str
}.

(** The values interpolated into the f-string of [_create_plan_template]. *)
Record plan_doc := mk_plan_doc {
  pd_created : str;       (* created: {timestamp} *)
  pd_source_file : str;   (* source_file: {file_path.name} *)
  pd_title : str          (* # Action Plan: {file_path.stem} *)
}.

(** The values interpolated into the f-string of [update_dashboard]. *)
Record dashboard_doc := mk_dashboard_doc {
  dd_iso_timestamp : str;        (* last_updated: {iso_timestamp} *)
  dd_timestamp : str;            (* **Last Refresh:** {timestamp} *)
  dd_needs_action_count : nat;
  dd_pending_count : nat;
  dd_done_today : nat;
  dd_inbox_count : nat
}.

(** The rows of the two tables of the dashboard that carry a count. *)
Definition row (label : string) (n : nat) : str :=
  py "| " ++ py label ++ py " | " ++ str_of_nat n ++ py " |".

Definition quick_stats (d : dashboard_doc) : list str :=
  [ row "Pending Tasks" (dd_needs_action_count d);
    row "Awaiting Approval" (dd_pending_count d);
    row "Completed Today" (dd_done_today d) ].

Definition inbox_status (d : dashboard_doc) : list str :=
  [ row "/Inbox" (dd_inbox_count d);
    row "/Needs_Action" (dd_needs_action_count d);
    row "/Pending_Approval" (dd_pending_count d) ].

(** What a single write puts into a file: text, one line
    [json.dumps(log_entry) + '\n'], a rendered plan or a rendered dashboard.
    The fixed text of the two templates is not spelled out. *)
Inductive chunk :=
  | Raw (s : str)
  | JsonLine (e : log_entry)
  | Plan (p : plan_doc)
  | Dashboard (d : dashboard_doc).

(** A directory entry is a regular file, with the chunks written to it in
    order, or a subdirectory (with a flag telling whether it is empty). *)
Inductive kind :=
  | Regular (body : list chunk)
  | Directory (empty : bool).

Record entry := mk_entry { e_kind : kind; e_mtime : datetime }.

Abbreviation dir := (gmap str entry).

(** ** Exceptions

    The [OSError]s that the modelled file operations raise; all of them are
    caught by [except Exception]. *)
Inductive exn :=
  | FileNotFoundError
  | IsADirectoryError
  | NotADirectoryError
  | DirectoryNotEmpty.

(** ** Logger *)

Inductive level := DEBUG | INFO | ERROR.

(** One call of [self.logger.<level>(message)]; [lr_exc] is the exception
    formatted at the end of the message, when there is one. *)
Record log_record := mk_log_record {
  lr_level : level;
  lr_message : str;
  lr_exc : option exn
}.

Global Instance exn_eq_dec : EqDecision exn.
Proof. solve_decision. Defined.

Global Instance level_eq_dec : EqDecision level.
Proof. solve_decision. Defined.

Global Instance log_record_eq_dec : EqDecision log_record.
Proof. solve_decision. Defined.

(** ** The world

    [vault] holds the directories directly under [vault_path], by name
    (what else lies there is not represented); [scripts] is the directory
    [scripts_path], a sibling of the vault unless overridden, and is taken
    to lie outside the vault; [journal] is the sequence of logger calls;
    [ticks] counts the readings of the clock made so far. Names are compared
    exactly and file operations fail as they do on a POSIX file system. *)
Record world := mk_world {
  vault : gmap str dir;
  scripts : option dir;
  journal : list log_record;
  ticks : nat
}.

Definition set_vault (f : gmap str dir -> gmap str dir) (w : world) : world :=
  mk_world (f (vault w)) (scripts w) (journal w) (ticks w).

Definition set_scripts (s : option dir) (w : world) : world :=
  mk_world (vault w) s (journal w) (ticks w).

Definition emit (r : log_record) (w : world) : world :=
  mk_world (vault w) (scripts w) (journal w ++ [r]) (ticks w).

Definition tick (w : world) : world :=
  mk_world (vault w) (scripts w) (journal w) (S (ticks w)).

(** The entry named [n] of the vault directory [d], if both exist. *)
Definition file_at (d n : str) (w : world) : option entry :=
  vault w !! d ≫= (.!! n).

(** The part of a world that is not the journal. *)
Definition fs_state (w : world) : gmap str dir * option dir * nat :=
  (vault w, scripts w, ticks w).

(** ** The monad of effectful code: state and exceptions *)

Definition M (A : Type) : Type := world -> world * (exn + A).

Definition ret {A} (a : A) : M A := fun w => (w, inr a).

Definition raise {A} (e : exn) : M A := fun w => (w, inl e).

Definition bind {A B} (m : M A) (k : A -> M B) : M B :=
  fun w =>
    match m w with
    | (w', inr a) => k a w'
    | (w', inl e) => (w', inl e)
    end.

(** [try: m except Exception as e: ...]: the outcome of [m] as a value. *)
Definition attempt {A} (m : M A) : M (exn + A) :=
  fun w => let '(w', r) := m w in (w', inr r).

Definition is_raise {A} (r : exn + A) : bool :=
  match r with inl _ => true | inr _ => false end.

(** The number of calls that returned, in a list of outcomes. *)
Definition succeeded {K A} (l : list (K * (exn + A))) : nat :=
  length (filter (fun o => ¬ is_raise (snd o)) l).

Definition gets {A} (f : world -> A) : M A := fun w => (w, inr (f w)).

Declare Scope m_scope.
Delimit Scope m_scope with M.
Notation "x <- c1 ;; c2" := (bind c1 (fun x => c2))
  (at level 100, c1 at next level, right associativity) : m_scope.
Notation "c1 ;; c2" := (bind c1 (fun _ => c2))
  (at level 100, c2 at level 200, right associativity) : m_scope.

(** The ASCII names of the lifecycle directories and files. *)
Definition Needs_Action : str := py "Needs_Action".
Definition Approved : str := py "Approved".
Definition Done : str := py "Done".
Definition Logs : str := py "Logs".
Definition Plans : str := py "Plans".
Definition Inbox : str := py "Inbox".
Definition Pending_Approval : str := py "Pending_Approval".
Definition Dashboard_md : str := py "Dashboard.md".
Definition dot_md : str := py ".md".

(** The name of the plan that accompanies the Intake file [name]. *)
Definition plan_name (name : str) : str := py "PLAN_" ++ stem name ++ py ".md".

(** ** Relations between a world and a later one

    [preserves R m]: running [m] takes every world to one related to it by
    [R], whether [m] returns or raises. *)
Definition preserves {A} (R : relation world) (m : M A) : Prop :=
  ∀ w, R w (m w).1.

(** Both relations hold. *)
Definition rel_and (R1 R2 : relation world) : relation world :=
  fun w w' => R1 w w' ∧ R2 w w'.

Definition scripts_at (n : str) (w : world) : option entry :=
  scripts w ≫= (.!! n).

(** The vault is untouched, and so is the scripts directory but for
    [Dashboard.md]. *)
Definition only_dashboard (w w' : world) : Prop :=
  vault w' = vault w
  ∧ (is_Some (scripts w') ↔ is_Some (scripts w))
  ∧ ∀ n, n ≠ Dashboard_md → scripts_at n w' = scripts_at n w.

(** The scripts directory is untouched but for [Dashboard.md]. *)
Definition scripts_frame (w w' : world) : Prop :=
  (is_Some (scripts w') ↔ is_Some (scripts w))
  ∧ ∀ n, n ≠ Dashboard_md → scripts_at n w' = scripts_at n w.

(** The directories of the vault that are not in [ds] are untouched. *)
Definition dirs_same (ds : list str) (w w' : world) : Prop :=
  ∀ d, d ∉ ds → vault w' !! d = vault w !! d.

(** The vault has the same directories. *)
Definition same_dirs_exist (w w' : world) : Prop :=
  ∀ d, is_Some (vault w' !! d) ↔ is_Some (vault w !! d).

(** What an append finds: nothing, or a regular file with its body. *)
Definition body_of (o : option entry) : option (list chunk) :=
  match o with
  | None => Some []
  | Some (mk_entry (Regular b) _) => Some b
  | Some (mk_entry (Directory _) _) => None
  end.

(** A log entry written by the orchestrator that reports a success. *)
Definition successful (e : log_entry) : Prop :=
  le_actor e = py "orchestrator" ∧ le_result e = py "success".

(** Every file of [Logs] is as it was, or is a regular file that has its
    former body followed by JSON lines of successful entries. *)
Definition log_grows (w w' : world) : Prop :=
  ∀ key,
    file_at Logs key w' = file_at Logs key w
    ∨ ∃ old es t,
        body_of (file_at Logs key w) = Some old
        ∧ file_at Logs key w'
          = Some (mk_entry (Regular (old ++ (JsonLine <$> es))) t)
        ∧ Forall successful es.

(** [p] names a regular file of [Plans] that holds one rendered plan. *)
Definition has_plan (p : str) (w : world) : Prop :=
  ∃ pd t, file_at Plans p w = Some (mk_entry (Regular [Plan pd]) t).

Definition plans_kept (w w' : world) : Prop :=
  ∀ p, has_plan p w → has_plan p w'.

(** Every entry of [Plans] is as it was, or is the plan of one of [files]. *)
Definition plans_frame (files : list str) (w w' : world) : Prop :=
  ∀ p,
    file_at Plans p w' = file_at Plans p w
    ∨ (has_plan p w' ∧ ∃ f, f ∈ files ∧ p = plan_name f).

(** The entries named [n] of [Approved] and of [Done] are untouched. *)
Definition same_at (n : str) (w w' : world) : Prop :=
  file_at Approved n w' = file_at Approved n w
  ∧ file_at Done n w' = file_at Done n w.

(** What [process_needs_action] may do when the Intake listing is [files]:
    write the plans of [files], append successful entries to the logs and
    rewrite the dashboard. *)
Definition intake_frame (files : list str) : relation world :=
  rel_and (dirs_same [Plans; Logs])
    (rel_and same_dirs_exist
       (rel_and scripts_frame
          (rel_and plans_kept
             (rel_and (plans_frame files) log_grows)))).

(** What [process_approved] may do: move entries from [Approved] to [Done],
    append successful entries to the logs and rewrite the dashboard. *)
Definition approved_frame : relation world :=
  rel_and (dirs_same [Approved; Done; Logs])
    (rel_and same_dirs_exist
       (rel_and scripts_frame (rel_and plans_kept log_grows))).

(** [m] never reads the journal: from two worlds that differ in their
    journals only, it raises or returns the same, leaves the same files and
    clock, and appends the same records. *)
Definition journal_blind {A} (m : M A) : Prop :=
  ∀ w1 w2, fs_state w1 = fs_state w2 →
    fs_state (m w1).1 = fs_state (m w2).1
    ∧ (m w1).2 = (m w2).2
    ∧ ∃ delta, journal (m w1).1 = journal w1 ++ delta
               ∧ journal (m w2).1 = journal w2 ++ delta.

(** The log entry of an approved file. *)
Definition approved_entry (t : datetime) (n : str) : log_entry :=
  mk_log_entry (isoformat t) (py "execute_approved") (py "orchestrator") n
               (py "success").

(** ** File operations on a directory *)

(** Opening [n] for writing ([w] truncates, [a] appends) and writing [c]. *)
Definition put (append : bool) (n : str) (c : chunk) (t : datetime)
    (es : dir) : exn + dir :=
  match es !! n with
  | Some (mk_entry (Directory _) _) => inl IsADirectoryError
  | Some (mk_entry (Regular b) _) =>
      inr (<[n := mk_entry (Regular (if append then b ++ [c] else [c])) t]> es)
  | None => inr (<[n := mk_entry (Regular [c]) t]> es)
  end.

(** The error of [os.rename(src, dst)], if any, from the kind of [src] and
    of what [dst] names. *)
Definition rename_check (src : kind) (dst : option kind) : option exn :=
  match src, dst with
  | _, None => None
  | Regular _, Some (Regular _) => None
  | Regular _, Some (Directory _) => Some IsADirectoryError
  | Directory _, Some (Regular _) => Some NotADirectoryError
  | Directory _, Some (Directory true) => None
  | Directory _, Some (Directory false) => Some DirectoryNotEmpty
  end.

(** The vault once the entry [src] at [d1/n1] has moved to [d2/n2]. *)
Definition move_entry (d1 n1 d2 n2 : str) (src : entry)
    (v : gmap str dir) : gmap str dir :=
  alter <[n2 := src]> d2 (alter (delete n1) d1 v).

(** The names of a directory in the order [os.scandir] yields them, here
    the order of the map. *)
Definition scandir (es : dir) : list str := (map_to_list es).*1.

(** * The orchestrator *)

Module Orchestrator.

Section Engine.

(** [datetime.now()] is the clock's value at the current reading; the file
    system stamps modification times with the same clock. *)
Variable clock : nat -> datetime.

Open Scope m_scope.

Definition now : M datetime := fun w => (tick w, inr (clock (ticks w))).

Definition logger (lvl : level) (message : str) (exc : option exn) : M unit :=
  fun w => (emit (mk_log_record lvl message exc) w, inr tt).

(** [(vault_path / d).mkdir(parents=True, exist_ok=True)] *)
Definition mkdir (d : str) : M unit := fun w =>
  match vault w !! d with
  | Some _ => (w, inr tt)
  | None => (set_vault <[d := ∅]> w, inr tt)
  end.

(** [(vault_path / d).glob('*.md')]: nothing when [d] is not a directory. *)
Definition glob_md (d : str) (w : world) : list str :=
  match vault w !! d with
  | Some es => filter (fun n => endswith dot_md n) (scandir es)
  | None => []
  end.

(** [(vault_path / d / n).read_text()] *)
Definition read_text (d n : str) : M (list chunk) := fun w =>
  match vault w !! d ≫= (.!! n) with
  | Some (mk_entry (Regular b) _) => (w, inr b)
  | Some (mk_entry (Directory _) _) => (w, inl IsADirectoryError)
  | None => (w, inl FileNotFoundError)
  end.

(** [(vault_path / d / n).stat().st_mtime], as a local [datetime]. *)
Definition stat_mtime (d n : str) : M datetime := fun w =>
  match vault w !! d ≫= (.!! n) with
  | Some e => (w, inr (e_mtime e))
  | None => (w, inl FileNotFoundError)
  end.

(** Writing one chunk to [vault_path / d / n], truncating or appending. *)
Definition write_vault (append : bool) (d n : str) (c : chunk) : M unit :=
  fun w =>
    match vault w !! d with
    | None => (w, inl FileNotFoundError)
    | Some es =>
        match put append n c (clock (ticks w)) es with
        | inl e => (w, inl e)
        | inr es' => (tick (set_vault <[d := es']> w), inr tt)
        end
    end.

(** [(scripts_path / n).write_text(c)] *)
Definition write_scripts (n : str) (c : chunk) : M unit := fun w =>
  match scripts w with
  | None => (w, inl FileNotFoundError)
  | Some es =>
      match put false n c (clock (ticks w)) es with
      | inl e => (w, inl e)
      | inr es' => (tick (set_scripts (Some es') w), inr tt)
      end
  end.

(** [(vault_path / d1 / n1).rename(vault_path / d2 / n2)]: one atomic step
    of the file system, which either moves the entry or changes nothing. *)
Definition rename (d1 n1 d2 n2 : str) : M unit := fun w =>
  match vault w !! d1 ≫= (.!! n1) with
  | None => (w, inl FileNotFoundError)
  | Some src =>
      match vault w !! d2 with
      | None => (w, inl FileNotFoundError)
      | Some es2 =>
          if bool_decide (d1 = d2 ∧ n1 = n2) then (w, inr tt)
          else match rename_check (e_kind src) (e_kind <$> es2 !! n2) with
               | Some e => (w, inl e)
               | None =>
                   (set_vault (move_entry d1 n1 d2 n2 src) w, inr tt)
               end
      end
  end.

(** *** [Orchestrator._log_action] *)
Definition _log_action (action_type target : str) : M unit :=
  t <- now;;
  let log_entry := mk_log_entry (isoformat t) action_type (py "orchestrator")
                                target (py "success") in
  t' <- now;;
  let log_file := strftime_Ymd t' ++ py ".jsonl" in
  write_vault true Logs log_file (JsonLine log_entry).

(** *** [Orchestrator._is_today] *)
Definition _is_today (d n : str) : M bool :=
  t <- now;;
  let today := date t in
  m <- stat_mtime d n;;
  ret (bool_decide (date m = today)).

(** [[f for f in files if self._is_today(f)]] *)
Fixpoint filter_today (d : str) (files : list str) : M (list str) :=
  match files with
  | [] => ret []
  | f :: rest =>
      b <- _is_today d f;;
      l <- filter_today d rest;;
      ret (if b : bool then f :: l else l)
  end.

(** *** [Orchestrator.update_dashboard] *)
Definition update_dashboard : M unit :=
  logger DEBUG (py "Updating dashboard") None;;
  inbox_count <- gets (fun w => match vault w !! Inbox with
                                | Some es => length (scandir es)
                                | None => O
                                end);;
  needs_action_count <- gets (fun w => length (glob_md Needs_Action w));;
  pending_count <- gets (fun w => length (glob_md Approved w));;
  done_files <- gets (glob_md Done);;
  today_files <- filter_today Done done_files;;
  let done_today := length today_files in
  t <- now;;
  let timestamp := strftime_Ymd t ++ py " " ++ strftime_HMS t in
  t' <- now;;
  let iso_timestamp := isoformat t' in
  let content := Dashboard (mk_dashboard_doc iso_timestamp timestamp
                              needs_action_count pending_count done_today
                              inbox_count) in
  write_scripts Dashboard_md content;;
  logger INFO (py "Dashboard updated") None.

(** *** [Orchestrator._create_plan_template] *)
Definition _create_plan_template (name : str) : M plan_doc :=
  t <- now;;
  ret (mk_plan_doc (isoformat t) name (stem name)).

(** *** [Orchestrator._process_single_file]

    The prompt built by [_create_process_prompt] is a pure value that is
    never used, and is left out. *)
Definition _process_single_file (name : str) : M unit :=
  logger INFO (py "Processing: " ++ name) None;;
  content <- read_text Needs_Action name;;
  _log_action (py "process_file") name;;
  let plan_path := plan_name name in
  plan_content <- _create_plan_template name;;
  write_vault false Plans plan_path (Plan plan_content);;
  logger INFO (py "Created plan: " ++ plan_path) None;;
  update_dashboard.

(** The [for] loop of [process_needs_action], with its counter. *)
Fixpoint intake_loop (files : list str) (processed : nat) : M nat :=
  match files with
  | [] => ret processed
  | file_path :: rest =>
      r <- attempt (_process_single_file file_path);;
      match r with
      | inr _ => intake_loop rest (S processed)
      | inl e =>
          logger ERROR (py "Error processing " ++ file_path ++ py ": ")
                 (Some e);;
          intake_loop rest processed
      end
  end.

(** *** [Orchestrator.process_needs_action] *)
Definition process_needs_action : M nat :=
  files <- gets (glob_md Needs_Action);;
  match files with
  | [] =>
      logger INFO (py "No files to process in Needs_Action") None;;
      ret O
  | _ =>
      logger INFO (py "Found " ++ str_of_nat (length files)
                   ++ py " file(s) to process") None;;
      processed <- intake_loop files O;;
      logger INFO (py "Processed " ++ str_of_nat processed ++ py " file(s)")
             None;;
      ret processed
  end.

(** *** [Orchestrator._execute_approved_action] *)
Definition _execute_approved_action (name : str) : M unit :=
  logger INFO (py "Executing approved action: " ++ name) None;;
  content <- read_text Approved name;;
  _log_action (py "execute_approved") name;;
  rename Approved name Done name;;
  logger INFO (py "Moved to Done: " ++ name) None;;
  update_dashboard.

(** The [for] loop of [process_approved], with its counter. *)
Fixpoint approved_loop (files : list str) (processed : nat) : M nat :=
  match files with
  | [] => ret processed
  | file_path :: rest =>
      r <- attempt (_execute_approved_action file_path);;
      match r with
      | inr _ => approved_loop rest (S processed)
      | inl e =>
          logger ERROR (py "Error executing " ++ file_path ++ py ": ")
                 (Some e);;
          approved_loop rest processed
      end
  end.

(** *** [Orchestrator.process_approved] *)
Definition process_approved : M nat :=
  files <- gets (glob_md Approved);;
  match files with
  | [] =>
      logger INFO (py "No approved files to process") None;;
      ret O
  | _ =>
      logger INFO (py "Found " ++ str_of_nat (length files)
                   ++ py " approved file(s) to execute") None;;
      approved_loop files O
  end.

(** The two messages of [run_once]. *)
Definition cycle_start : log_record :=
  mk_log_record INFO (py "Running single processing cycle") None.

Definition cycle_complete : log_record :=
  mk_log_record INFO (py "Processing cycle complete") None.

(** *** [Orchestrator.run_once] *)
Definition run_once : M unit :=
  logger INFO (py "Running single processing cycle") None;;
  process_approved;;
  process_needs_action;;
  update_dashboard;;
  logger INFO (py "Processing cycle complete") None.

(** The [except] clause of the loop of [process_needs_action]: the world
    after the outcome [r] of the file [f] has been handled. *)
Definition after_error (f : str) (r : exn + unit) (w : world) : world :=
  match r with
  | inl e => emit (mk_log_record ERROR (py "Error processing " ++ f ++ py ": ")
                                 (Some e)) w
  | inr _ => w
  end.

(** The outcome of each call of [_process_single_file] made by the loop of
    [process_needs_action], in order: the same loop, recording what the
    [try] statement saw instead of counting. *)
Fixpoint intake_trace (files : list str) : M (list (str * (exn + unit))) :=
  match files with
  | [] => ret []
  | file_path :: rest =>
      r <- attempt (_process_single_file file_path);;
      match r with
      | inr _ => ret tt
      | inl e =>
          logger ERROR (py "Error processing " ++ file_path ++ py ": ")
                 (Some e)
      end;;
      l <- intake_trace rest;;
      ret ((file_path, r) :: l)
  end.

(** [process_needs_action] with its loop replaced by [intake_trace]: the
    same effects, and the outcomes in place of the count. *)
Definition process_needs_action_trace : M (list (str * (exn + unit))) :=
  files <- gets (glob_md Needs_Action);;
  match files with
  | [] =>
      logger INFO (py "No files to process in Needs_Action") None;;
      ret []
  | _ =>
      logger INFO (py "Found " ++ str_of_nat (length files)
                   ++ py " file(s) to process") None;;
      l <- intake_trace files;;
      logger INFO (py "Processed " ++ str_of_nat (succeeded l)
                   ++ py " file(s)") None;;
      ret l
  end.

(** The Intake files whose processing raises when [process_needs_action]
    runs from [w], in the order of the listing. *)
Definition raised (w : world) : list str :=
  match process_needs_action_trace w with
  | (_, inr l) => (filter (fun o => is_raise (snd o)) l).*1
  | (_, inl _) => []
  end.

(** The cycle as the specification words it: [process_approved], then
    [process_needs_action], then one regeneration of the summary. *)
Definition cycle : M unit :=
  process_approved;;
  process_needs_action;;
  update_dashboard.

(** *** [Orchestrator.__init__]

    The handlers installed by [_setup_logging] belong to the logging
    library; of that call only the reading of the clock is kept. The two
    messages carry the vault and scripts paths, which the model does not
    name. *)
Definition init : M unit :=
  mkdir Needs_Action;;
  mkdir Approved;;
  mkdir Done;;
  mkdir Logs;;
  _ <- now;;
  logger INFO (py "Orchestrator initialized for vault: ") None;;
  logger INFO (py "Scripts path: ") None.

End Engine.

End Orchestrator.

(** ** Worlds used in the examples *)

Module Examples.

Definition today : datetime := mk_datetime 2026 11 4 9 30 0 0.
Definition yesterday : datetime := mk_datetime 2026 11 3 18 0 0 0.

(** A clock that stands still. *)
Definition clock0 (n : nat) : datetime := today.

Definition text (s : string) (t : datetime) : entry :=
  mk_entry (Regular [Raw (py s)]) t.

Definition folder : entry := mk_entry (Directory true) yesterday.

(** A vault that holds one Intake file and nothing else; the scripts
    directory exists. *)
Definition fresh : world :=
  mk_world {[ Needs_Action := {[ py "task.md" := text "do it" yesterday ]} ]}
           (Some ∅) [] 0.

(** A complete vault with an empty Intake, or with Intake entries that are
    not markdown files. *)
Definition idle : world :=
  mk_world {[ Needs_Action := {[ py "notes.txt" := text "n" yesterday ]};
              Plans := ∅; Pending_Approval := ∅; Approved := ∅; Done := ∅;
              Logs := ∅ ]}
           (Some ∅) [] 0.

(** One file awaits approval, none is approved. *)
Definition awaiting : world :=
  mk_world {[ Needs_Action := ∅; Plans := ∅;
              Pending_Approval := {[ py "pay.md" := text "pay" yesterday ]};
              Approved := ∅; Done := ∅; Logs := ∅ ]}
           (Some ∅) [] 0.

(** One approved request. *)
Definition approved1 : world :=
  mk_world {[ Needs_Action := ∅; Plans := ∅; Pending_Approval := ∅;
              Approved := {[ py "request.md" := text "pay" yesterday ]};
              Done := ∅; Logs := ∅ ]}
           (Some ∅) [] 0.

(** One approved request, and no [Done] directory to move it to. *)
Definition approved_no_done : world :=
  mk_world {[ Approved := {[ py "request.md" := text "pay" yesterday ]};
              Logs := ∅ ]}
           (Some ∅) [] 0.

(** Three Intake entries named [*.md]; the second one is a directory. *)
Definition batch : world :=
  mk_world {[ Needs_Action := {[ py "a.md" := text "a" yesterday;
                                 py "b.md" := folder;
                                 py "c.md" := text "c" yesterday ]};
              Plans := ∅; Pending_Approval := ∅; Approved := ∅; Done := ∅;
              Logs := ∅ ]}
           (Some ∅) [] 0.

End Examples.

(** * Further definitions: the dashboard, outcomes of the approved pass *)

(** [Dashboard.md] cannot be written: there is no scripts directory, or the
    name is that of a directory. *)
Definition dashboard_blocked (w : world) : bool :=
  match scripts w with
  | None => true
  | Some es =>
      match es !! Dashboard_md with
      | Some (mk_entry (Directory _) _) => true
      | _ => false
      end
  end.

(** Whether the dashboard can be written has not changed. *)
Definition blocked_same (w w' : world) : Prop :=
  dashboard_blocked w' = dashboard_blocked w.

(** The entry [f] of the vault directory [d] was last modified on the day
    [D]. *)
Definition modified_on (D : N * N * N) (d : str) (w : world) (f : str) : bool :=
  match file_at d f w with
  | Some e => bool_decide (date (e_mtime e) = D)
  | None => false
  end.

(** No entry of [Logs] is a directory, so that any log can be appended to. *)
Definition logs_writable (w : world) : Prop :=
  ∃ ls, vault w !! Logs = Some ls
        ∧ ∀ key, body_of (ls !! key) ≠ None.

(** The regular file [n] of [Approved], with body [b] and modification time
    [t], can be logged and renamed: the logs can be appended to, [Done]
    exists and holds no directory named [n]. *)
Definition ready_to_move (n : str) (b : list chunk) (t : datetime)
    (w : world) : Prop :=
  logs_writable w
  ∧ is_Some (vault w !! Done)
  ∧ file_at Approved n w = Some (mk_entry (Regular b) t)
  ∧ ∀ em tm, file_at Done n w ≠ Some (mk_entry (Directory em) tm).

(** The regular file [n] of [Needs_Action] can be logged and planned: the
    logs can be appended to, [Plans] exists and holds no directory named
    like the plan of [n]. *)
Definition ready_to_plan (n : str) (w : world) : Prop :=
  logs_writable w
  ∧ (∃ b t, file_at Needs_Action n w = Some (mk_entry (Regular b) t))
  ∧ is_Some (vault w !! Plans)
  ∧ ∀ em tm, file_at Plans (plan_name n) w ≠ Some (mk_entry (Directory em) tm).

(** The files of a world: the vault and the scripts directory. *)
Definition files_of (w : world) : gmap str dir * option dir :=
  (vault w, scripts w).

(** [Approved] holds no entry named [f]. *)
Definition gone (w : world) (f : str) : bool :=
  match file_at Approved f w with
  | None => true
  | Some _ => false
  end.

(** The world after [n] more readings of the clock and nothing else. *)
Definition ticked (n : nat) (w : world) : world :=
  mk_world (vault w) (scripts w) (journal w) (ticks w + n).

Module Ghost.

Section Rendering.

Variable clock : nat -> datetime.

Open Scope m_scope.

(** The dashboard that [update_dashboard] renders from [w], given the
    markdown files of [Done] it found to be of today: the two timestamps
    are read after one reading of the clock for each markdown file of
    [Done]. *)
Definition rendered (w : world) (today_files : list str) : dashboard_doc :=
  let n := length (Orchestrator.glob_md Done w) in
  let t := clock (ticks w + n) in
  mk_dashboard_doc
    (isoformat (clock (ticks w + n + 1)))
    (strftime_Ymd t ++ py " " ++ strftime_HMS t)
    (length (Orchestrator.glob_md Needs_Action w))
    (length (Orchestrator.glob_md Approved w))
    (length today_files)
    (match vault w !! Inbox with
     | Some es => length (scandir es)
     | None => 0%nat
     end).

End Rendering.

End Ghost.

(** ** More worlds for the examples *)

Module More_examples.

Import Examples.

(** [Done] holds a file of today, a file of yesterday, a directory of
    today named like a markdown file, and a text file of today. *)
Definition done_mix : world :=
  mk_world {[ Needs_Action := ∅; Plans := ∅; Pending_Approval := ∅;
              Approved := ∅;
              Done := {[ py "a.md" := text "a" today;
                         py "b.md" := text "b" yesterday;
                         py "c.md" := mk_entry (Directory true) today;
                         py "d.txt" := text "d" today ]};
              Logs := ∅ ]}
           (Some ∅) [] 0.

(** One approved request in a complete vault, and no scripts directory. *)
Definition approved_no_scripts : world :=
  mk_world {[ Needs_Action := ∅; Plans := ∅; Pending_Approval := ∅;
              Approved := {[ py "request.md" := text "pay" yesterday ]};
              Done := ∅; Logs := ∅ ]}
           None [] 0.

(** One Intake file and one approved request in a vault without [Logs]. *)
Definition no_logs : world :=
  mk_world {[ Needs_Action := {[ py "task.md" := text "do it" yesterday ]};
              Plans := ∅;
              Approved := {[ py "request.md" := text "pay" yesterday ]};
              Done := ∅ ]}
           (Some ∅) [] 0.

(** One Intake file whose plan exists already, with other content. *)
Definition planned : world :=
  mk_world {[ Needs_Action := {[ py "task.md" := text "do it" yesterday ]};
              Plans := {[ py "PLAN_task.md" := text "edited by hand" yesterday ]};
              Pending_Approval := ∅; Approved := ∅; Done := ∅; Logs := ∅ ]}
           (Some ∅) [] 0.

End More_examples.

(** * The watcher core: [BaseWatcher]'s state file and loop *)

(** The line boundaries of [str.splitlines]: LF, VT, FF, CR, FS, GS, RS,
    NEL, LINE SEPARATOR and PARAGRAPH SEPARATOR. *)
Definition is_linebreak (c : N) : bool :=
  ((0x0A <=? c) && (c <=? 0x0D)) || ((0x1C <=? c) && (c <=? 0x1E))
  || (c =? 0x85) || (c =? 0x2028) || (c =? 0x2029).

(** A string that holds no line boundary. *)
Definition one_line (x : str) : Prop :=
  Forall (fun c => is_linebreak c = false) x.

(** [s.splitlines()], with the line read so far in [cur]: CR LF is one
    boundary, and a final boundary does not open a last, empty line. *)
Fixpoint splitlines_from (cur : str) (s : str) : list str :=
  match s with
  | [] => match cur with [] => [] | _ => [cur] end
  | c :: t =>
      if is_linebreak c then
        match c, t with
        | 13, 10 :: t' => cur :: splitlines_from [] t'
        | _, _ => cur :: splitlines_from [] t
        end
      else splitlines_from (cur ++ [c]) t
  end.

Definition splitlines (s : str) : list str := splitlines_from [] s.

(** What reading a file in text mode does to line ends (universal
    newlines): CR LF and CR become LF. *)
Fixpoint universal_newlines (s : str) : str :=
  match s with
  | [] => []
  | 13 :: ((10 :: t') as t) => 10 :: universal_newlines t'
  | 13 :: t => 10 :: universal_newlines t
  | c :: t => c :: universal_newlines t
  end.

(** ['\n'.join(l)] *)
Fixpoint join_lines (l : list str) : str :=
  match l with
  | [] => []
  | [x] => x
  | x :: rest => x ++ 10 :: join_lines rest
  end.

Module Watcher.

Section Core.

Variable clock : nat -> datetime.

(** The text of a chunk that is not raw text: what [json.dumps] and the two
    templates of the orchestrator produce. *)
Variable rendered_text : chunk -> str.

(** The connector of a concrete watcher: the items of the source, and the
    two abstract methods. [create_action_file] returns the name of the file
    it wrote. *)
Variable item : Type.
Variable check_for_updates : M (list item).
Variable create_action_file : item -> M str.

(** The seconds between two checks: [time.sleep] accepts no negative
    number. *)
Variable check_interval : N.

Open Scope m_scope.

Definition chunk_text (c : chunk) : str :=
  match c with
  | Raw s => s
  | _ => rendered_text c
  end.

(** The text of a file. *)
Definition body_text (b : list chunk) : str := concat (chunk_text <$> b).

(** *** [BaseWatcher.__init__]

    Returns the initial [processed_ids]. The handlers given to
    [logging.basicConfig] belong to the logging library and are left out,
    and with them the log file that the library keeps in [Logs]. *)
Definition init : M (gset str) :=
  Orchestrator.mkdir Logs;;
  Orchestrator.mkdir Needs_Action;;
  ret ∅.

(** *** [BaseWatcher.load_processed_ids]

    Returns the new value of [processed_ids]. *)
Definition load_processed_ids (state_file : str) (processed_ids : gset str)
    : M (gset str) :=
  found <- gets (fun w => bool_decide (is_Some (file_at Logs state_file w)));;
  if found : bool then
    body <- Orchestrator.read_text Logs state_file;;
    let ids : gset str :=
      list_to_set (splitlines (universal_newlines (body_text body))) in
    Orchestrator.logger INFO
      (py "Loaded " ++ str_of_nat (size ids) ++ py " processed IDs") None;;
    ret ids
  else ret processed_ids.

(** *** [BaseWatcher.save_processed_ids]

    The set is written in the order in which it is iterated, here the order
    of [elements]. *)
Definition save_processed_ids (state_file : str) (processed_ids : gset str)
    : M unit :=
  Orchestrator.write_vault clock false Logs state_file
    (Raw (join_lines (elements processed_ids))).

(** *** [BaseWatcher.get_timestamp] *)
Definition get_timestamp : M str :=
  t <- Orchestrator.now clock;;
  ret (isoformat t).

(** The [for] loop of [run] over the items found. *)
Fixpoint create_all (items : list item) : M unit :=
  match items with
  | [] => ret tt
  | item :: rest =>
      r <- attempt (filepath <- create_action_file item;;
                    Orchestrator.logger INFO
                      (py "Created action file: " ++ filepath) None);;
      match r with
      | inr _ => ret tt
      | inl e =>
          Orchestrator.logger ERROR (py "Error creating action file: ")
                              (Some e)
      end;;
      create_all rest
  end.

(** One turn of the [while True] loop of [run]. [time.sleep], given an
    interval that is not negative, changes nothing in the world and is left
    out. *)
Definition iteration : M unit :=
  r <- attempt (items <- check_for_updates;;
                match items with
                | [] => Orchestrator.logger DEBUG (py "No new items") None
                | _ =>
                    Orchestrator.logger INFO
                      (py "Found " ++ str_of_nat (length items)
                       ++ py " new item(s)") None;;
                    create_all items
                end);;
  match r with
  | inr _ => ret tt
  | inl e => Orchestrator.logger ERROR (py "Error in check loop: ") (Some e)
  end.

(** The first [n] turns of the loop. *)
Fixpoint iterations (n : nat) : M unit :=
  match n with
  | O => ret tt
  | S k => iteration;; iterations k
  end.

(** *** [BaseWatcher.run], for its first [n] turns. The first two
    messages carry the class name and the vault path, which the model does
    not name. *)
Definition run (n : nat) : M unit :=
  Orchestrator.logger INFO (py "Starting ") None;;
  Orchestrator.logger INFO (py "Vault path: ") None;;
  Orchestrator.logger INFO
    (py "Check interval: " ++ str_of_N check_interval ++ py "s") None;;
  iterations n.

End Core.

End Watcher.

(** * Continuous mode and the verification script *)

Module Driver.

Section Cycles.

Variable clock : nat -> datetime.

Open Scope m_scope.

(** The first [n] turns of the [while True] loop of [run_continuous]:
    [run_once], then [time.sleep], which changes nothing in the world when
    the interval is not negative. An exception of [run_once] leaves the
    loop. *)
Fixpoint cycles (n : nat) : M unit :=
  match n with
  | O => ret tt
  | S k => Orchestrator.run_once clock;; cycles k
  end.

(** *** [Orchestrator.run_continuous], for its first [n] cycles, no
    [KeyboardInterrupt] arriving. The message carries the interval. *)
Definition run_continuous (interval : N) (n : nat) : M unit :=
  Orchestrator.logger INFO
    (py "Starting continuous mode (interval: " ++ str_of_N interval
     ++ py "s)") None;;
  cycles n.

End Cycles.

End Driver.

Module Verify.

(** The folders that [verify_bronze.main] requires, in its order. *)
Definition required_folders : list str :=
  [Inbox; Needs_Action; Done; Pending_Approval; Approved; Plans; Logs].

(** The value of [check_folder(vault_path / d, ...)]: the path exists and
    is a directory. What it prints is left out. *)
Definition check_folder (d : str) (w : world) : bool :=
  bool_decide (is_Some (vault w !! d)).

(** [all_passed] after the loop over the required folders. *)
Definition folders_passed (w : world) : bool :=
  fold_left (fun all_passed d =>
               if negb (check_folder d w) then false else all_passed)
            required_folders true.

End Verify.

Module Verify_examples.

(** A vault that holds only the three folders the constructor leaves out. *)
Definition seeded : world :=
  mk_world {[ Inbox := ∅; Pending_Approval := ∅; Plans := ∅ ]}
           (Some ∅) [] 0.

End Verify_examples.

(** * Properties of [BaseWatcher.sanitize_filename] *)

Section Strings.

Implicit Types (s t : str) (c : N).

Lemma lstrip_split s :
  ∃ pre, s = pre ++ lstrip s ∧ Forall (fun c => isspace c = true) pre.
Proof.
  induction s as [|c s [pre [E F]]]; simpl.
  - by exists [].
  - destruct (isspace c) eqn:Hc.
    + exists (c :: pre). split; [simpl; by f_equal | by constructor].
    + by exists [].
Qed.

Lemma lstrip_head s c t : lstrip s = c :: t → isspace c = false.
Proof.
  induction s as [|x s IH]; simpl; [done|].
  destruct (isspace x) eqn:Hx; [done|]. intros [= -> _]. done.
Qed.

Lemma lstrip_fixed s c t : s = c :: t → isspace c = false → lstrip s = s.
Proof. intros -> H. simpl. by rewrite H. Qed.

Lemma lstrip_idemp s : lstrip (lstrip s) = lstrip s.
Proof.
  destruct (lstrip s) as [|c t] eqn:E; [done|].
  eapply lstrip_fixed; [done|]. by eapply lstrip_head.
Qed.

Lemma rstrip_split s :
  ∃ post, s = rstrip s ++ post ∧ Forall (fun c => isspace c = true) post.
Proof.
  unfold rstrip. destruct (lstrip_split (rev s)) as [pre [E F]].
  exists (rev pre). split.
  - rewrite <- rev_app_distr, <- E. by rewrite rev_involutive.
  - by apply Forall_rev.
Qed.

Lemma strip_trimmed s : trimmed (strip s).
Proof.
  unfold trimmed, strip. split.
  - destruct (rstrip (lstrip s)) as [|c t] eqn:E; [done|].
    eapply lstrip_fixed; [done|].
    destruct (rstrip_split (lstrip s)) as [post [E' _]].
    rewrite E in E'. simpl in E'. by eapply lstrip_head.
  - unfold rstrip. rewrite rev_involutive. apply lstrip_idemp.
Qed.

Lemma trimmed_strip s : trimmed s → strip s = s.
Proof.
  intros [H1 H2]. unfold strip, rstrip. rewrite H1, H2.
  apply rev_involutive.
Qed.

Lemma strip_idemp s : strip (strip s) = strip s.
Proof. apply trimmed_strip, strip_trimmed. Qed.

Lemma strip_infix s : ∃ pre post, s = pre ++ strip s ++ post.
Proof.
  destruct (lstrip_split s) as [pre [E _]].
  destruct (rstrip_split (lstrip s)) as [post [E' _]].
  exists pre, post. unfold strip. by rewrite <- E', <- E.
Qed.

Lemma strip_elem s c : c ∈ strip s → c ∈ s.
Proof.
  destruct (strip_infix s) as (pre & post & E). intros H.
  rewrite E. set_solver.
Qed.

End Strings.

Section Sanitize.

Import BaseWatcher.

Implicit Types (s name : str) (c : N) (cs : str).

Lemma replace_loop cs name :
  underscore ∉ cs →
  fold_left (fun name char => replace char underscore name) cs name
  = map (clean cs) name.
Proof.
  revert name. induction cs as [|x cs IH]; intros name Hu; simpl.
  - induction name as [|c name IHn]; simpl; [done|].
    by rewrite <- IHn.
  - rewrite IH by set_solver. unfold replace. rewrite map_map.
    apply map_ext. intros c. unfold clean.
    destruct (N.eqb_spec c x) as [->|Hne].
    + rewrite (bool_decide_eq_false_2 (underscore ∈ cs)) by set_solver.
      rewrite bool_decide_eq_true_2; [done|]. set_solver.
    + destruct (decide (c ∈ cs)) as [Hin|Hin].
      * rewrite !bool_decide_eq_true_2; [done| |]; set_solver.
      * rewrite !bool_decide_eq_false_2; [done| |]; set_solver.
Qed.

Lemma sanitize_filename_map name :
  sanitize_filename name = strip (map (clean invalid_chars) name).
Proof.
  unfold sanitize_filename. f_equal. apply replace_loop.
  compute_done.
Qed.

Lemma clean_not_elem cs c : underscore ∉ cs → clean cs c ∉ cs.
Proof.
  intros Hu. unfold clean. destruct (decide (c ∈ cs)).
  - by rewrite bool_decide_eq_true_2.
  - by rewrite bool_decide_eq_false_2.
Qed.

Lemma clean_id cs c : c ∉ cs → clean cs c = c.
Proof. intros H. unfold clean. by rewrite bool_decide_eq_false_2. Qed.

Lemma underscore_valid : underscore ∉ invalid_chars.
Proof. compute_done. Qed.

(** No character of [invalid_chars] survives the sanitisation. *)
Lemma sanitize_filename_clean name c :
  c ∈ invalid_chars → c ∉ sanitize_filename name.
Proof.
  intros Hc Hin. rewrite sanitize_filename_map in Hin.
  apply strip_elem in Hin. apply list_elem_of_fmap in Hin as (x & -> & _).
  by apply (clean_not_elem invalid_chars x underscore_valid).
Qed.

Lemma map_clean_fixed cs s : (∀ c, c ∈ s → c ∉ cs) → map (clean cs) s = s.
Proof.
  induction s as [|x s IH]; intros H; simpl; [done|].
  rewrite clean_id by (apply H; set_solver).
  f_equal. apply IH. intros c Hc. apply H. set_solver.
Qed.

Lemma clean_reserved name :
  question_mark ∉ name → fullwidth_question_mark ∉ name →
  map (clean invalid_chars) name = map (clean reserved_chars) name.
Proof.
  intros Hq Hf. apply map_ext_in. intros c Hc%list_elem_of_In.
  assert (c ≠ fullwidth_question_mark) as Hne by (intros ->; done).
  unfold clean.
  rewrite (bool_decide_ext (c ∈ invalid_chars) (c ∈ reserved_chars)); [done|].
  unfold invalid_chars, reserved_chars, fullwidth_question_mark in *.
  set_solver.
Qed.

(** C4, as amended. For every string, the sanitised name contains none of
    the characters [<], [>], [:], the double quote, [/], the backslash, [|]
    and the asterisk; and for a string with no question mark, ASCII or
    full-width, it is the string with each of those characters replaced by
    an underscore, trimmed of leading and trailing whitespace. *)
Theorem sanitize_filename_reserved name :
  (∀ c, c ∈ reserved_chars → c ∉ sanitize_filename name)
  ∧ (question_mark ∉ name → fullwidth_question_mark ∉ name →
     sanitize_filename name = strip (map (clean reserved_chars) name)).
Proof.
  split.
  - intros c Hc. apply sanitize_filename_clean.
    unfold invalid_chars, reserved_chars in *. set_solver.
  - intros Hq Hf. rewrite sanitize_filename_map. f_equal.
    by apply clean_reserved.
Qed.

Lemma sanitize_filename_reserved_witness :
  question_mark ∉ (py " a<b|c ") ∧ fullwidth_question_mark ∉ (py " a<b|c ")
  ∧ sanitize_filename (py " a<b|c ") = py "a_b_c".
Proof.
  assert (question_mark ∉ (py " a<b|c ")) as Hq
    by (compute_done).
  assert (fullwidth_question_mark ∉ (py " a<b|c ")) as Hf
    by (compute_done).
  split; [exact Hq|]. split; [exact Hf|].
  rewrite (proj2 (sanitize_filename_reserved (py " a<b|c ")) Hq Hf).
  vm_compute. reflexivity.
Defined.

(** C4, as stated, fails: a full-width less-than sign is one of the
    characters the specification lists, and it is kept. *)
Lemma sanitize_filename_fullwidth_kept :
  0xFF1C ∈ spec_chars
  ∧ sanitize_filename [0xFF1C; 97] = [0xFF1C; 97]
  ∧ spec_sanitize_filename [0xFF1C; 97] = [95; 97]
  ∧ ¬ (∀ c, c ∈ spec_chars → c ∉ sanitize_filename [0xFF1C; 97]).
Proof.
  assert (0xFF1C ∈ spec_chars) as H
    by (compute_done).
  split; [exact H|]. split; [reflexivity|]. split; [reflexivity|].
  intros Hall. apply (Hall _ H). vm_compute. left.
Qed.

(** C5. Sanitising a sanitised name changes nothing. *)
Theorem sanitize_filename_idempotent name :
  sanitize_filename (sanitize_filename name) = sanitize_filename name.
Proof.
  rewrite (sanitize_filename_map (sanitize_filename name)).
  rewrite map_clean_fixed.
  - rewrite sanitize_filename_map. apply strip_idemp.
  - intros c Hin Hc. by apply (sanitize_filename_clean name c).
Qed.

End Sanitize.

(** * The monad and the relations between worlds *)

Section Preserves.

Context {A B : Type} (R : relation world) `{!PreOrder R}.

Lemma preserves_ret (a : A) : preserves R (ret a).
Proof. intros w. reflexivity. Qed.

Lemma preserves_raise (e : exn) : preserves R (raise (A:=A) e).
Proof. intros w. reflexivity. Qed.

Lemma preserves_gets (f : world → A) : preserves R (gets f).
Proof. intros w. reflexivity. Qed.

Lemma preserves_bind (m : M A) (k : A → M B) :
  preserves R m → (∀ a, preserves R (k a)) → preserves R (bind m k).
Proof.
  intros Hm Hk w. unfold bind. specialize (Hm w).
  destruct (m w) as [w' [e|a]]; simpl in *; [done|].
  etrans; [exact Hm|]. apply Hk.
Qed.

Lemma preserves_attempt (m : M A) : preserves R m → preserves R (attempt m).
Proof.
  intros Hm w. unfold attempt. specialize (Hm w). by destruct (m w).
Qed.

End Preserves.

Lemma bind_gets {A B} (f : world → A) (k : A → M B) w :
  bind (gets f) k w = k (f w) w.
Proof. reflexivity. Qed.

Lemma bind_inr {A B} (m : M A) (k : A → M B) w w1 a :
  m w = (w1, inr a) → bind m k w = k a w1.
Proof. intros H. unfold bind. by rewrite H. Qed.

Lemma bind_inl {A B} (m : M A) (k : A → M B) w w1 e :
  m w = (w1, inl e) → bind m k w = (w1, inl e).
Proof. intros H. unfold bind. by rewrite H. Qed.

Lemma bind_ret {A B} (a : A) (k : A → M B) w : bind (ret a) k w = k a w.
Proof. reflexivity. Qed.

Global Instance rel_and_preorder (R1 R2 : relation world)
  `{!PreOrder R1, !PreOrder R2} : PreOrder (rel_and R1 R2).
Proof.
  split.
  - intros w. split; reflexivity.
  - intros w1 w2 w3 [A1 B1] [A2 B2]. split; etrans; eassumption.
Qed.

Lemma preserves_and {A} (R1 R2 : relation world) (m : M A) :
  preserves R1 m → preserves R2 m → preserves (rel_and R1 R2) m.
Proof. intros H1 H2 w. split; [apply H1|apply H2]. Qed.

Lemma preserves_weaken {A} (R R' : relation world) (m : M A) :
  (∀ w w', R w w' → R' w w') → preserves R m → preserves R' m.
Proof. intros HR Hm w. apply HR, Hm. Qed.

Global Instance only_dashboard_preorder : PreOrder only_dashboard.
Proof.
  split.
  - intros w. by repeat split.
  - intros w1 w2 w3 (V1 & S1 & F1) (V2 & S2 & F2). repeat split.
    + congruence.
    + intros H. by apply S1, S2.
    + intros H. by apply S2, S1.
    + intros n Hn. rewrite F2, F1; done.
Qed.

Global Instance scripts_frame_preorder : PreOrder scripts_frame.
Proof.
  split.
  - intros w. by split.
  - intros w1 w2 w3 (S1 & F1) (S2 & F2). split.
    + etrans; [apply S2|apply S1].
    + intros n Hn. rewrite F2, F1; done.
Qed.

Global Instance dirs_same_preorder ds : PreOrder (dirs_same ds).
Proof.
  split.
  - by intros w d.
  - intros w1 w2 w3 H1 H2 d Hd. rewrite H2, H1; done.
Qed.

Global Instance same_dirs_exist_preorder : PreOrder same_dirs_exist.
Proof.
  split.
  - by intros w d.
  - intros w1 w2 w3 H1 H2 d. etrans; [apply H2 | apply H1].
Qed.

Global Instance same_at_preorder n : PreOrder (same_at n).
Proof.
  split.
  - by intros w.
  - intros w1 w2 w3 [A1 D1] [A2 D2]. split; congruence.
Qed.

Global Instance plans_kept_preorder : PreOrder plans_kept.
Proof.
  split.
  - by intros w p.
  - intros w1 w2 w3 H1 H2 p Hp. by apply H2, H1.
Qed.

Global Instance plans_frame_preorder files : PreOrder (plans_frame files).
Proof.
  split.
  - intros w p. by left.
  - intros w1 w2 w3 H1 H2 p.
    destruct (H2 p) as [E2|N2]; [|by right].
    rewrite E2. destruct (H1 p) as [E1|[[pd [t Hpd]] Hf]]; [by left|].
    right. split; [|done]. exists pd, t. by rewrite E2.
Qed.

Global Instance log_grows_preorder : PreOrder log_grows.
Proof.
  split.
  - intros w key. by left.
  - intros w1 w2 w3 H1 H2 key.
    destruct (H2 key) as [E2|(old2 & es2 & t2 & B2 & F2 & S2)].
    { rewrite E2. apply H1. }
    destruct (H1 key) as [E1|(old1 & es1 & t1 & B1 & F1 & S1)].
    { right. exists old2, es2, t2. by rewrite <- E1. }
    right. rewrite F1 in B2. simpl in B2. injection B2 as <-.
    exists old1, (es1 ++ es2), t2. split; [done|]. split.
    + by rewrite F2, fmap_app, app_assoc.
    + by apply Forall_app.
Qed.

(** What [only_dashboard] implies. *)

Lemma only_dashboard_file_at w w' d n :
  only_dashboard w w' → file_at d n w' = file_at d n w.
Proof. intros [V _]. unfold file_at. by rewrite V. Qed.

Lemma only_dashboard_scripts_frame w w' :
  only_dashboard w w' → scripts_frame w w'.
Proof. by intros [_ H]. Qed.

Lemma only_dashboard_dirs_same ds w w' :
  only_dashboard w w' → dirs_same ds w w'.
Proof. intros [V _] d _. by rewrite V. Qed.

Lemma only_dashboard_same_dirs_exist w w' :
  only_dashboard w w' → same_dirs_exist w w'.
Proof. intros [V _] d. by rewrite V. Qed.

Lemma only_dashboard_same_at n w w' : only_dashboard w w' → same_at n w w'.
Proof. intros H. split; by apply only_dashboard_file_at. Qed.

Lemma only_dashboard_plans_kept w w' : only_dashboard w w' → plans_kept w w'.
Proof.
  intros H p (pd & t & Hp). exists pd, t.
  by rewrite (only_dashboard_file_at w w').
Qed.

Lemma only_dashboard_plans_frame files w w' :
  only_dashboard w w' → plans_frame files w w'.
Proof. intros H p. left. by apply only_dashboard_file_at. Qed.

Lemma only_dashboard_log_grows w w' : only_dashboard w w' → log_grows w w'.
Proof. intros H key. left. by apply only_dashboard_file_at. Qed.

(** * The file operations *)

Section Primitives.

Import Orchestrator.

Variable clock : nat → datetime.

Lemma now_only_dashboard : preserves only_dashboard (now clock).
Proof. intros w. by repeat split. Qed.

Lemma logger_only_dashboard lvl msg exc :
  preserves only_dashboard (logger lvl msg exc).
Proof. intros w. by repeat split. Qed.

Lemma read_text_same d n w : (read_text d n w).1 = w.
Proof.
  unfold read_text. destruct (vault w !! d ≫= (.!! n)) as [[[b|e] t]|]; done.
Qed.

Lemma read_text_only_dashboard d n : preserves only_dashboard (read_text d n).
Proof. intros w. rewrite read_text_same. reflexivity. Qed.

Lemma stat_mtime_only_dashboard d n :
  preserves only_dashboard (stat_mtime d n).
Proof.
  intros w. unfold stat_mtime.
  destruct (vault w !! d ≫= (.!! n)); reflexivity.
Qed.

Lemma write_scripts_only_dashboard c :
  preserves only_dashboard (write_scripts clock Dashboard_md c).
Proof.
  intros w. unfold write_scripts.
  destruct (scripts w) as [es|] eqn:Hs; [|reflexivity].
  unfold put. destruct (es !! Dashboard_md) as [[[b|e] t]|] eqn:He;
    try reflexivity.
  all: split; [done|]; split;
    [simpl; rewrite Hs; split; intros _; by eexists|].
  all: intros n Hn; unfold scripts_at; simpl; rewrite Hs; simpl;
    by rewrite lookup_insert_ne.
Qed.

(** A write either raises and changes nothing, or puts the chunk where it
    is asked to. *)
Lemma write_vault_inv a d n c w :
  ((write_vault clock a d n c w).1 = w
   ∧ is_raise (write_vault clock a d n c w).2 = true)
  ∨ ∃ es b,
      vault w !! d = Some es ∧ body_of (es !! n) = Some b
      ∧ write_vault clock a d n c w
        = (tick (set_vault
                   <[d := <[n := mk_entry (Regular (if a then b ++ [c]
                                                    else [c]))
                                          (clock (ticks w))]> es]> w),
           inr tt).
Proof.
  unfold write_vault. destruct (vault w !! d) as [es|] eqn:Hd; [|by left].
  unfold put. destruct (es !! n) as [[[b|e] t]|] eqn:He; [| by left |].
  - right. exists es, b. by rewrite He.
  - right. exists es, []. rewrite He. by destruct a.
Qed.

(** A rename either raises and changes nothing, or moves the entry. *)
Lemma rename_inv d1 n1 d2 n2 w :
  d1 ≠ d2 →
  ((rename d1 n1 d2 n2 w).1 = w ∧ is_raise (rename d1 n1 d2 n2 w).2 = true)
  ∨ ∃ src,
      file_at d1 n1 w = Some src ∧ is_Some (vault w !! d2)
      ∧ rename d1 n1 d2 n2 w
        = (set_vault (move_entry d1 n1 d2 n2 src) w, inr tt).
Proof.
  intros Hne. unfold rename, file_at.
  destruct (vault w !! d1 ≫= (.!! n1)) as [src|] eqn:Hs; [|by left].
  destruct (vault w !! d2) as [es2|] eqn:Hd; [|by left].
  rewrite bool_decide_eq_false_2 by (intros [? _]; done).
  destruct (rename_check _ _); [by left|].
  right. exists src. by repeat split.
Qed.

Lemma file_at_write d n e es w d' n' :
  vault w !! d = Some es →
  file_at d' n' (tick (set_vault <[d := <[n := e]> es]> w))
  = if bool_decide (d' = d ∧ n' = n) then Some e else file_at d' n' w.
Proof.
  intros Hd. unfold file_at. simpl.
  destruct (decide (d' = d)) as [->|Hne].
  - rewrite lookup_insert_eq, Hd. simpl.
    destruct (decide (n' = n)) as [->|Hn].
    + rewrite lookup_insert_eq. by rewrite bool_decide_eq_true_2.
    + rewrite lookup_insert_ne by done.
      rewrite bool_decide_eq_false_2; [done|]. by intros [_ ?].
  - rewrite lookup_insert_ne by done.
    rewrite bool_decide_eq_false_2; [done|]. by intros [? _].
Qed.

Lemma file_at_rename d1 n1 d2 n2 src w d' n' :
  d1 ≠ d2 → file_at d1 n1 w = Some src → is_Some (vault w !! d2) →
  file_at d' n' (set_vault (move_entry d1 n1 d2 n2 src) w)
  = if bool_decide (d' = d1 ∧ n' = n1) then None
    else if bool_decide (d' = d2 ∧ n' = n2) then Some src
    else file_at d' n' w.
Proof.
  intros Hne Hs [es2 Hd]. unfold file_at, move_entry in *. simpl.
  destruct (vault w !! d1) as [es1|] eqn:H1; [|done]. simpl in Hs.
  destruct (decide (d' = d1)) as [->|Hd1].
  - rewrite lookup_alter_ne, lookup_alter_eq, H1 by done. simpl.
    destruct (decide (n' = n1)) as [->|Hn].
    + rewrite lookup_delete_eq. by rewrite bool_decide_eq_true_2.
    + rewrite lookup_delete_ne by done.
      rewrite !bool_decide_eq_false_2; [done| |]; by intros [? ?].
  - rewrite bool_decide_eq_false_2 by (by intros [? _]).
    destruct (decide (d' = d2)) as [->|Hd2].
    + rewrite lookup_alter_eq, lookup_alter_ne, Hd by done. simpl.
      destruct (decide (n' = n2)) as [->|Hn].
      * rewrite lookup_insert_eq. by rewrite bool_decide_eq_true_2.
      * rewrite lookup_insert_ne by done.
        rewrite bool_decide_eq_false_2; [done|]. by intros [_ ?].
    + rewrite !lookup_alter_ne by done.
      rewrite bool_decide_eq_false_2; [done|]. by intros [? _].
Qed.

End Primitives.

(** Goals [preserves R m] are solved by following the structure of [m];
    the facts about the operations that touch the vault are hints. *)
Create HintDb pres discriminated.

Ltac pres_step :=
  lazymatch goal with
  | |- preserves _ (bind _ _) =>
      apply preserves_bind; [typeclasses eauto| |intros ?]
  | |- preserves _ (ret _) => apply preserves_ret; typeclasses eauto
  | |- preserves _ (raise _) => apply preserves_raise; typeclasses eauto
  | |- preserves _ (gets _) => apply preserves_gets; typeclasses eauto
  | |- preserves _ (attempt _) => apply preserves_attempt
  | |- preserves _ (match ?r with _ => _ end) => destruct r
  | |- preserves _ (let _ := _ in _) => cbv zeta
  | |- preserves _ _ =>
      first [ solve [eauto with pres typeclass_instances]
            | apply preserves_and ]
  end.

Ltac pres := repeat pres_step.

Section Neutral.

Import Orchestrator.

Variable clock : nat → datetime.

Local Hint Resolve now_only_dashboard logger_only_dashboard
  read_text_only_dashboard stat_mtime_only_dashboard
  write_scripts_only_dashboard : pres.

Lemma _is_today_only_dashboard d n :
  preserves only_dashboard (_is_today clock d n).
Proof. unfold _is_today. pres. Qed.

Local Hint Resolve _is_today_only_dashboard : pres.

Lemma filter_today_only_dashboard d files :
  preserves only_dashboard (filter_today clock d files).
Proof. induction files as [|f files IH]; simpl; pres. Qed.

Local Hint Resolve filter_today_only_dashboard : pres.

Lemma update_dashboard_only_dashboard :
  preserves only_dashboard (update_dashboard clock).
Proof. unfold update_dashboard. pres. Qed.

Lemma _create_plan_template_only_dashboard name :
  preserves only_dashboard (_create_plan_template clock name).
Proof. unfold _create_plan_template. pres. Qed.

End Neutral.

Global Hint Resolve now_only_dashboard logger_only_dashboard
  read_text_only_dashboard stat_mtime_only_dashboard
  write_scripts_only_dashboard update_dashboard_only_dashboard
  _create_plan_template_only_dashboard : pres.

(** * Writes and renames against the relations *)

Section Writes.

Import Orchestrator.

Variable clock : nat → datetime.

Lemma write_vault_lookup_ne a d n c w d' :
  d' ≠ d → vault (write_vault clock a d n c w).1 !! d' = vault w !! d'.
Proof.
  intros Hne.
  destruct (write_vault_inv clock a d n c w) as [[-> _]|(es & b & _ & _ & ->)];
    [done|].
  simpl. by rewrite lookup_insert_ne.
Qed.

Lemma write_vault_file_at_ne a d n c w d' n' :
  d' ≠ d → file_at d' n' (write_vault clock a d n c w).1 = file_at d' n' w.
Proof. intros Hne. unfold file_at. by rewrite write_vault_lookup_ne. Qed.

Lemma write_vault_dirs_same ds a d n c :
  d ∈ ds → preserves (dirs_same ds) (write_vault clock a d n c).
Proof.
  intros Hd w d' Hd'. apply write_vault_lookup_ne. by intros ->.
Qed.

Lemma write_vault_same_dirs_exist a d n c :
  preserves same_dirs_exist (write_vault clock a d n c).
Proof.
  intros w d'.
  destruct (write_vault_inv clock a d n c w)
    as [[-> _]|(es & b & Hd & _ & ->)]; [done|].
  simpl. destruct (decide (d' = d)) as [->|Hne].
  - rewrite lookup_insert_eq, Hd. split; intros _; by eexists.
  - by rewrite lookup_insert_ne.
Qed.

Lemma write_vault_same_at n' a d n c :
  d ≠ Approved → d ≠ Done → preserves (same_at n') (write_vault clock a d n c).
Proof.
  intros H1 H2 w. split; by apply write_vault_file_at_ne.
Qed.

Lemma write_vault_plans_kept_ne a d n c :
  d ≠ Plans → preserves plans_kept (write_vault clock a d n c).
Proof.
  intros Hne w p (pd & t & Hp). exists pd, t.
  by rewrite write_vault_file_at_ne.
Qed.

Lemma write_vault_plans_frame_ne files a d n c :
  d ≠ Plans → preserves (plans_frame files) (write_vault clock a d n c).
Proof. intros Hne w p. left. by apply write_vault_file_at_ne. Qed.

Lemma write_vault_log_grows_ne a d n c :
  d ≠ Logs → preserves log_grows (write_vault clock a d n c).
Proof. intros Hne w key. left. by apply write_vault_file_at_ne. Qed.

(** Writing a plan. *)
Lemma write_plan_plans_kept n pd :
  preserves plans_kept (write_vault clock false Plans n (Plan pd)).
Proof.
  intros w p (pd0 & t & Hp).
  destruct (write_vault_inv clock false Plans n (Plan pd) w)
    as [[-> _]|(es & b & Hd & _ & ->)]; [by exists pd0, t|].
  unfold has_plan. simpl. rewrite (file_at_write Plans n _ es w Plans p Hd).
  case_bool_decide; [by eexists _, _|by exists pd0, t].
Qed.

Lemma write_plan_plans_frame files f pd :
  f ∈ files →
  preserves (plans_frame files)
            (write_vault clock false Plans (plan_name f) (Plan pd)).
Proof.
  intros Hf w p.
  destruct (write_vault_inv clock false Plans (plan_name f) (Plan pd) w)
    as [[-> _]|(es & b & Hd & _ & ->)]; [by left|].
  unfold has_plan. simpl.
  rewrite (file_at_write Plans (plan_name f) _ es w Plans p Hd).
  case_bool_decide as Hp; [|by left].
  destruct Hp as [_ ->]. right. split; [by eexists _, _|by exists f].
Qed.

(** Appending one line to a log. *)
Lemma append_log_grows key e :
  successful e →
  preserves log_grows (write_vault clock true Logs key (JsonLine e)).
Proof.
  intros He w k.
  destruct (write_vault_inv clock true Logs key (JsonLine e) w)
    as [[-> _]|(es & b & Hd & Hb & ->)]; [by left|].
  simpl. rewrite (file_at_write Logs key _ es w Logs k Hd).
  case_bool_decide as Hk; [|by left].
  destruct Hk as [_ ->]. right. exists b, [e], (clock (ticks w)).
  split; [|split; [done|by constructor]].
  unfold file_at. by rewrite Hd.
Qed.

(** Renaming an approved file into [Done]. *)
Lemma rename_lookup_ne m w d :
  d ≠ Approved → d ≠ Done →
  vault (rename Approved m Done m w).1 !! d = vault w !! d.
Proof.
  intros H1 H2.
  destruct (rename_inv Approved m Done m w) as [[-> _]|(src & _ & _ & ->)];
    [done|done|].
  simpl. unfold move_entry. by rewrite !lookup_alter_ne.
Qed.

Lemma rename_dirs_same ds m :
  Approved ∈ ds → Done ∈ ds →
  preserves (dirs_same ds) (rename Approved m Done m).
Proof.
  intros H1 H2 w d Hd. apply rename_lookup_ne; by intros ->.
Qed.

Lemma rename_same_dirs_exist m :
  preserves same_dirs_exist (rename Approved m Done m).
Proof.
  intros w d.
  destruct (rename_inv Approved m Done m w) as [[-> _]|(src & _ & _ & ->)];
    [done|done|].
  simpl. unfold move_entry. rewrite !lookup_alter. repeat case_decide; subst;
    rewrite ?fmap_is_Some; done.
Qed.

Lemma rename_file_at_ne m w d n :
  d ≠ Approved → d ≠ Done →
  file_at d n (rename Approved m Done m w).1 = file_at d n w.
Proof. intros H1 H2. unfold file_at. by rewrite rename_lookup_ne. Qed.

Lemma rename_same_at n m :
  n ≠ m → preserves (same_at n) (rename Approved m Done m).
Proof.
  intros Hne w.
  destruct (rename_inv Approved m Done m w) as [[-> _]|(src & Hs & Hd & ->)];
    [done|done|].
  simpl. split; rewrite (file_at_rename Approved m Done m src w _ n) by done.
  - rewrite !bool_decide_eq_false_2; [done| |]; by intros [? ?].
  - rewrite !bool_decide_eq_false_2; [done| |]; by intros [? ?].
Qed.

Lemma write_vault_scripts_frame a d n c :
  preserves scripts_frame (write_vault clock a d n c).
Proof.
  intros w.
  by destruct (write_vault_inv clock a d n c w) as [[-> _]|(? & ? & _ & _ & ->)].
Qed.

Lemma rename_scripts_frame m :
  preserves scripts_frame (rename Approved m Done m).
Proof.
  intros w.
  by destruct (rename_inv Approved m Done m w) as [[-> _]|(? & _ & _ & ->)].
Qed.

Lemma rename_log_grows m : preserves log_grows (rename Approved m Done m).
Proof. intros w key. left. by apply rename_file_at_ne. Qed.

Lemma rename_plans_kept m : preserves plans_kept (rename Approved m Done m).
Proof.
  intros w p (pd & t & Hp). exists pd, t. by rewrite rename_file_at_ne.
Qed.

End Writes.

(** * The operations of the orchestrator against the relations *)

Lemma names_distinct :
  Logs ≠ Plans ∧ Logs ≠ Approved ∧ Logs ≠ Done ∧ Plans ≠ Approved
  ∧ Plans ≠ Done ∧ Approved ≠ Done ∧ Needs_Action ≠ Plans
  ∧ Needs_Action ≠ Logs ∧ Needs_Action ≠ Approved ∧ Needs_Action ≠ Done.
Proof. repeat split; compute_done. Qed.

Section Neutral_weaken.

Context {A : Type} (m : M A).

Lemma neutral_scripts_frame :
  preserves only_dashboard m → preserves scripts_frame m.
Proof. apply preserves_weaken, only_dashboard_scripts_frame. Qed.

Lemma neutral_dirs_same ds :
  preserves only_dashboard m → preserves (dirs_same ds) m.
Proof. apply preserves_weaken, only_dashboard_dirs_same. Qed.

Lemma neutral_same_dirs_exist :
  preserves only_dashboard m → preserves same_dirs_exist m.
Proof. apply preserves_weaken, only_dashboard_same_dirs_exist. Qed.

Lemma neutral_same_at n :
  preserves only_dashboard m → preserves (same_at n) m.
Proof. apply preserves_weaken, only_dashboard_same_at. Qed.

Lemma neutral_plans_kept :
  preserves only_dashboard m → preserves plans_kept m.
Proof. apply preserves_weaken, only_dashboard_plans_kept. Qed.

Lemma neutral_plans_frame files :
  preserves only_dashboard m → preserves (plans_frame files) m.
Proof. apply preserves_weaken, only_dashboard_plans_frame. Qed.

Lemma neutral_log_grows :
  preserves only_dashboard m → preserves log_grows m.
Proof. apply preserves_weaken, only_dashboard_log_grows. Qed.

End Neutral_weaken.

Global Hint Resolve neutral_scripts_frame neutral_dirs_same
  neutral_same_dirs_exist neutral_same_at neutral_plans_kept
  neutral_plans_frame neutral_log_grows : pres.

Global Hint Resolve write_vault_dirs_same write_vault_same_dirs_exist
  write_vault_same_at write_vault_plans_kept_ne write_vault_plans_frame_ne
  write_vault_log_grows_ne write_plan_plans_kept write_plan_plans_frame
  append_log_grows rename_dirs_same rename_same_dirs_exist rename_same_at
  rename_log_grows rename_plans_kept write_vault_scripts_frame
  rename_scripts_frame : pres.

Section Composite.

Import Orchestrator.

Variable clock : nat → datetime.

Lemma _log_action_only_logs a t ds :
  Logs ∈ ds → preserves (dirs_same ds) (_log_action clock a t).
Proof. intros H. unfold _log_action. pres. Qed.

Lemma _log_action_same_dirs_exist a t :
  preserves same_dirs_exist (_log_action clock a t).
Proof. unfold _log_action. pres. Qed.

Lemma _log_action_scripts_frame a t :
  preserves scripts_frame (_log_action clock a t).
Proof. unfold _log_action. pres. Qed.

Lemma _log_action_same_at n a t :
  preserves (same_at n) (_log_action clock a t).
Proof.
  destruct names_distinct as (? & ? & ? & _).
  unfold _log_action. pres.
Qed.

Lemma _log_action_plans_kept a t :
  preserves plans_kept (_log_action clock a t).
Proof.
  destruct names_distinct as (? & _).
  unfold _log_action. pres.
Qed.

Lemma _log_action_plans_frame files a t :
  preserves (plans_frame files) (_log_action clock a t).
Proof.
  destruct names_distinct as (? & _).
  unfold _log_action. pres.
Qed.

Lemma _log_action_log_grows a t :
  preserves log_grows (_log_action clock a t).
Proof.
  unfold _log_action. pres. apply append_log_grows. by split.
Qed.

End Composite.

Global Hint Resolve _log_action_only_logs _log_action_same_dirs_exist
  _log_action_scripts_frame _log_action_same_at _log_action_plans_kept
  _log_action_plans_frame _log_action_log_grows : pres.

Section Intake.

Import Orchestrator.

Variable clock : nat → datetime.

Lemma _process_single_file_frame files f :
  f ∈ files → preserves (intake_frame files) (_process_single_file clock f).
Proof.
  intros Hf. destruct names_distinct as (? & _).
  assert (Logs ∈ [Plans; Logs]) by set_solver.
  assert (Plans ∈ [Plans; Logs]) by set_solver.
  assert (Plans ≠ Logs) by done.
  unfold _process_single_file, intake_frame. pres.
Qed.

Lemma intake_loop_frame files fs processed :
  fs ⊆ files → preserves (intake_frame files) (intake_loop clock fs processed).
Proof.
  revert processed. induction fs as [|f fs IH]; intros processed Hfs; simpl.
  - unfold intake_frame. pres.
  - assert (f ∈ files) as Hf by set_solver.
    assert (fs ⊆ files) as Hsub by set_solver.
    pose proof (_process_single_file_frame files f Hf).
    pose proof (fun p => IH p Hsub).
    unfold intake_frame in *. pres.
Qed.

Lemma process_needs_action_frame w :
  intake_frame (glob_md Needs_Action w) w (process_needs_action clock w).1.
Proof.
  unfold process_needs_action. rewrite bind_gets.
  destruct (glob_md Needs_Action w) as [|f fs] eqn:Hg.
  - refine ((_ : preserves (intake_frame []) _) w).
    unfold intake_frame. pres.
  - set (files := f :: fs) in *.
    refine ((_ : preserves (intake_frame files) _) w).
    pose proof (intake_loop_frame files files 0 (reflexivity _)) as Hloop.
    unfold intake_frame in *. pres.
Qed.

End Intake.

(** * Approved files *)

Section Approved.

Import Orchestrator.

Variable clock : nat → datetime.

Lemma glob_md_NoDup d w : NoDup (glob_md d w).
Proof.
  unfold glob_md. destruct (vault w !! d) as [es|]; [|constructor].
  apply NoDup_filter, NoDup_fst_map_to_list.
Qed.

Lemma _execute_approved_action_frame m :
  preserves approved_frame (_execute_approved_action clock m).
Proof.
  assert (Logs ∈ [Approved; Done; Logs]) by set_solver.
  assert (Approved ∈ [Approved; Done; Logs]) by set_solver.
  assert (Done ∈ [Approved; Done; Logs]) by set_solver.
  destruct names_distinct as (? & _).
  unfold _execute_approved_action, approved_frame. pres.
Qed.

Lemma _execute_approved_action_same_at n m :
  n ≠ m → preserves (same_at n) (_execute_approved_action clock m).
Proof. intros Hne. unfold _execute_approved_action. pres. Qed.

Lemma approved_loop_step f fs p w :
  approved_loop clock (f :: fs) p w
  = match _execute_approved_action clock f w with
    | (w1, inr _) => approved_loop clock fs (S p) w1
    | (w1, inl e) =>
        approved_loop clock fs p
          (emit (mk_log_record ERROR
                   (py "Error executing " ++ f ++ py ": ") (Some e)) w1)
    end.
Proof.
  simpl. unfold bind, attempt.
  by destruct (_execute_approved_action clock f w) as [w1 [e|[]]].
Qed.

Lemma approved_loop_frame fs p :
  preserves approved_frame (approved_loop clock fs p).
Proof.
  revert p. induction fs as [|f fs IH]; intros p; simpl.
  - unfold approved_frame. pres.
  - pose proof (_execute_approved_action_frame f).
    unfold approved_frame in *. pres.
Qed.

Lemma approved_loop_same_at n fs p :
  n ∉ fs → preserves (same_at n) (approved_loop clock fs p).
Proof.
  revert p. induction fs as [|f fs IH]; intros p Hn; simpl.
  - pres.
  - assert (n ≠ f) by set_solver.
    pose proof (_execute_approved_action_same_at n f).
    pose proof (fun p => IH p ltac:(set_solver)).
    pres.
Qed.

Lemma process_approved_frame :
  preserves approved_frame (process_approved clock).
Proof.
  intros w. unfold process_approved. rewrite bind_gets.
  destruct (glob_md Approved w) as [|f fs].
  - refine ((_ : preserves approved_frame _) w). unfold approved_frame. pres.
  - refine ((_ : preserves approved_frame _) w).
    pose proof (approved_loop_frame (f :: fs) 0).
    unfold approved_frame in *. pres.
Qed.

(** One approved file: whatever raises, the entry stays where it was until
    the rename moves it whole. *)
Lemma _execute_approved_action_outcome n e w :
  file_at Approved n w = Some e →
  let w' := (_execute_approved_action clock n w).1 in
  same_at n w w'
  ∨ (file_at Approved n w' = None ∧ file_at Done n w' = Some e).
Proof.
  intros He. cbv zeta. unfold _execute_approved_action.
  erewrite bind_inr by reflexivity.
  set (w1 := emit _ w).
  assert (same_at n w w1) as H1 by done.
  pose proof (read_text_same Approved n w1) as Hr.
  destruct (read_text Approved n w1) as [w2 [ex|b]] eqn:Er; simpl in Hr;
    subst w2.
  { erewrite bind_inl by done. by left. }
  erewrite bind_inr by done.
  pose proof (_log_action_same_at clock n (py "execute_approved") n w1) as H2.
  destruct (_log_action clock (py "execute_approved") n w1) as [w3 [ex|[]]]
    eqn:El; simpl in H2.
  { erewrite bind_inl by done. left. by etrans. }
  erewrite bind_inr by done.
  assert (same_at n w w3) as H3 by (by etrans).
  destruct (rename_inv Approved n Done n w3)
    as [[Hw Hx]|(src & Hs & Hd & Hren)]; [compute_done| |].
  - destruct (rename Approved n Done n w3) as [w4 [ex|[]]] eqn:En; simpl in *;
      [|done]. subst w4. erewrite bind_inl by done. by left.
  - erewrite bind_inr by done. right.
    destruct H3 as [HA HD]. rewrite HA, He in Hs. injection Hs as <-.
    set (w4 := set_vault (move_entry Approved n Done n e) w3).
    assert (only_dashboard w4
              ((logger INFO (py "Moved to Done: " ++ n) None;;
                update_dashboard clock)%M w4).1) as H5.
    { refine ((_ : preserves only_dashboard _) w4). pres. }
    rewrite !(only_dashboard_file_at _ _ _ _ H5). unfold w4.
    rewrite !(file_at_rename Approved n Done n e w3)
      by (done || compute_done || by rewrite HA).
    rewrite bool_decide_eq_true_2 by done.
    rewrite bool_decide_eq_false_2 by (intros [? _]; done).
    by rewrite bool_decide_eq_true_2.
Qed.

Lemma approved_loop_outcome n e fs p w :
  NoDup fs → file_at Approved n w = Some e →
  let w' := (approved_loop clock fs p w).1 in
  same_at n w w'
  ∨ (file_at Approved n w' = None ∧ file_at Done n w' = Some e).
Proof.
  revert p w. induction fs as [|f fs IH]; intros p w Hnd He; cbv zeta.
  { by left. }
  apply NoDup_cons in Hnd as [Hf Hnd].
  rewrite approved_loop_step.
  destruct (decide (n = f)) as [<-|Hne].
  - pose proof (_execute_approved_action_outcome n e w He) as Hout.
    cbv zeta in Hout.
    destruct (_execute_approved_action clock n w) as [w1 [ex|[]]];
      simpl in Hout.
    + set (w2 := emit _ w1).
      pose proof (approved_loop_same_at n fs p Hf w2) as [HA HD].
      destruct Hout as [[HA1 HD1]|[HA1 HD1]]; [left|right]; split;
        try rewrite HA; try rewrite HD; done.
    + pose proof (approved_loop_same_at n fs (S p) Hf w1) as [HA HD].
      destruct Hout as [[HA1 HD1]|[HA1 HD1]]; [left|right]; split;
        try rewrite HA; try rewrite HD; done.
  - pose proof (_execute_approved_action_same_at n f Hne w) as [HA1 HD1].
    destruct (_execute_approved_action clock f w) as [w1 [ex|[]]];
      simpl in HA1, HD1.
    + set (w2 := emit _ w1).
      destruct (IH p w2 Hnd) as [[HA HD]|[HA HD]];
        [by rewrite <- He| |]; [left|right]; split;
        try rewrite HA; try rewrite HD; done.
    + destruct (IH (S p) w1 Hnd) as [[HA HD]|[HA HD]];
        [by rewrite <- He| |]; [left|right]; split;
        try rewrite HA; try rewrite HD; done.
Qed.

(** C3. For every entry of [Approved], when [process_approved] is over the
    entry is either still in [Approved], unchanged, with what [Done] holds
    under that name untouched, or it is gone from [Approved] and is, whole,
    the entry of that name in [Done]. The rename is one step of the file
    system, so no state in between exists. *)
Theorem process_approved_atomic n e w :
  file_at Approved n w = Some e →
  let w' := (process_approved clock w).1 in
  (file_at Approved n w' = Some e ∧ file_at Done n w' = file_at Done n w)
  ∨ (file_at Approved n w' = None ∧ file_at Done n w' = Some e).
Proof.
  intros He. cbv zeta. unfold process_approved. rewrite bind_gets.
  pose proof (glob_md_NoDup Approved w) as Hnd.
  destruct (glob_md Approved w) as [|f fs].
  { left. by split. }
  erewrite bind_inr by reflexivity.
  set (w1 := emit _ w).
  destruct (approved_loop_outcome n e (f :: fs) 0 w1 Hnd He)
    as [[HA HD]|H]; [left|by right].
  by rewrite HA, HD.
Qed.

End Approved.

Lemma process_approved_atomic_witness :
  file_at Approved (py "request.md") Examples.approved1
  = Some (Examples.text "pay" Examples.yesterday)
  ∧ let w' := (Orchestrator.process_approved Examples.clock0
                 Examples.approved1).1 in
    (file_at Approved (py "request.md") w'
     = Some (Examples.text "pay" Examples.yesterday)
     ∧ file_at Done (py "request.md") w'
       = file_at Done (py "request.md") Examples.approved1)
    ∨ (file_at Approved (py "request.md") w' = None
       ∧ file_at Done (py "request.md") w'
         = Some (Examples.text "pay" Examples.yesterday)).
Proof.
  split; [vm_compute; reflexivity|].
  apply (process_approved_atomic Examples.clock0).
  vm_compute. reflexivity.
Defined.

(** The scenario of one approved request: it leaves [Approved], is in
    [Done] as it was, and the day's log holds its entry; the pass counts one
    file. *)
Example process_approved_moves_request :
  let r := Orchestrator.process_approved Examples.clock0 Examples.approved1 in
  r.2 = inr 1%nat
  ∧ file_at Approved (py "request.md") r.1 = None
  ∧ file_at Done (py "request.md") r.1
    = Some (Examples.text "pay" Examples.yesterday)
  ∧ body_of (file_at Logs (py "2026-11-04.jsonl") r.1)
    = Some [JsonLine (approved_entry Examples.today (py "request.md"))].
Proof. cbv zeta. repeat split; vm_compute; reflexivity. Qed.

(** * Construction *)

Section Init.

Import Orchestrator.

Variable clock : nat → datetime.

Lemma mkdir_lookup d w d' :
  vault (mkdir d w).1 !! d'
  = if bool_decide (d' = d) then Some (default ∅ (vault w !! d))
    else vault w !! d'.
Proof.
  unfold mkdir. destruct (vault w !! d) as [es|] eqn:Hd; simpl.
  - case_bool_decide; by subst.
  - case_bool_decide; subst; [by rewrite lookup_insert_eq|].
    by rewrite lookup_insert_ne.
Qed.

Lemma mkdir_ret d w : mkdir d w = ((mkdir d w).1, inr tt).
Proof. unfold mkdir. by destruct (vault w !! d). Qed.

Lemma init_vault w :
  vault (init clock w).1
  = vault (mkdir Logs (mkdir Done (mkdir Approved
             (mkdir Needs_Action w).1).1).1).1.
Proof.
  unfold init. do 4 (erewrite bind_inr by apply mkdir_ret). reflexivity.
Qed.

(** What [__init__] does create: the four directories of its loop, each
    with the content it had, and nothing else. *)
Lemma init_creates w d :
  vault (init clock w).1 !! d
  = if bool_decide (d ∈ [Needs_Action; Approved; Done; Logs])
    then Some (default ∅ (vault w !! d))
    else vault w !! d.
Proof.
  rewrite init_vault, !mkdir_lookup.
  destruct names_distinct as (? & ? & ? & ? & ? & ? & ? & ? & ? & ?).
  repeat case_bool_decide; subst; try done; set_solver.
Qed.

End Init.

(** C1 fails on the code. On a vault that has only its Intake directory,
    construction creates [Needs_Action], [Approved], [Done] and [Logs], and
    neither [Plans] nor [Pending_Approval]; the Intake pass that follows
    cannot write its plan and counts no file. *)
Theorem init_omits_plans :
  let w1 := (Orchestrator.init Examples.clock0 Examples.fresh).1 in
  let r := Orchestrator.process_needs_action Examples.clock0 w1 in
  vault w1 !! Approved = Some ∅ ∧ vault w1 !! Done = Some ∅
  ∧ vault w1 !! Logs = Some ∅
  ∧ vault w1 !! Needs_Action = vault Examples.fresh !! Needs_Action
  ∧ vault w1 !! Plans = None
  ∧ vault w1 !! Pending_Approval = None
  ∧ Orchestrator.glob_md Needs_Action w1 = [py "task.md"]
  ∧ r.2 = inr 0%nat
  ∧ vault r.1 !! Plans = None
  ∧ mk_log_record ERROR (py "Error processing task.md: ")
                  (Some FileNotFoundError) ∈ journal r.1.
Proof.
  cbv zeta. repeat split; try (vm_compute; reflexivity). compute_done.
Qed.

(** * The dashboard *)

Section Dashboard.

Import Orchestrator.

Variable clock : nat → datetime.

Lemma filter_today_sublist d fs w w' l :
  filter_today clock d fs w = (w', inr l) → l `sublist_of` fs.
Proof.
  revert w w' l. induction fs as [|f fs IH]; intros w w' l; simpl.
  - by intros [= <- <-].
  - unfold bind at 1.
    destruct (_is_today clock d f w) as [w1 [e|b]]; [done|].
    unfold bind at 1.
    destruct (filter_today clock d fs w1) as [w2 [e|l2]] eqn:E; [done|].
    intros [= <- <-]. specialize (IH _ _ _ E).
    destruct b; by constructor.
Qed.

(** When [update_dashboard] returns, [Dashboard.md] holds one dashboard
    whose counts are those of the markdown files of [Needs_Action] and of
    [Approved], of some of the markdown files of [Done], and of the entries of
    [Inbox]. *)
Lemma update_dashboard_written w w' :
  update_dashboard clock w = (w', inr tt) →
  ∃ d t,
    scripts_at Dashboard_md w' = Some (mk_entry (Regular [Dashboard d]) t)
    ∧ dd_needs_action_count d = length (glob_md Needs_Action w)
    ∧ dd_pending_count d = length (glob_md Approved w)
    ∧ (dd_done_today d ≤ length (glob_md Done w))%nat
    ∧ dd_inbox_count d = match vault w !! Inbox with
                         | Some es => length (scandir es)
                         | None => 0%nat
                         end.
Proof.
  unfold update_dashboard.
  erewrite bind_inr by reflexivity. set (w0 := emit _ w).
  rewrite !bind_gets.
  destruct (filter_today clock Done (glob_md Done w0) w0) as [w1 [e|l]] eqn:Ef.
  { erewrite bind_inl by done. done. }
  erewrite bind_inr by done. cbv zeta.
  unfold now at 1. erewrite bind_inr by reflexivity.
  unfold now at 1. erewrite bind_inr by reflexivity.
  set (d := mk_dashboard_doc _ _ _ _ _ _).
  set (w3 := tick (tick w1)).
  destruct (scripts w3) as [es|] eqn:Hs.
  2:{ erewrite bind_inl by (unfold write_scripts; by rewrite Hs). done. }
  destruct (es !! Dashboard_md) as [[[b|?] ?]|] eqn:He.
  2:{ erewrite bind_inl by (unfold write_scripts, put; by rewrite Hs, He). done. }
  all: erewrite bind_inr
    by (unfold write_scripts, put; by rewrite Hs, He).
  all: intros [= <-]; exists d, (clock (ticks w3)).
  all: split; [unfold scripts_at; simpl; by rewrite lookup_insert_eq|].
  all: split; [done|]; split; [done|]; split; [|done].
  all: simpl; apply sublist_length; by eapply filter_today_sublist.
Qed.
End Dashboard.

(** C2 fails on the code. With one file awaiting approval and none
    approved, the figure written under "Awaiting Approval" and under
    "/Pending_Approval" is 0: it is the number of markdown files of
    [Approved]. *)
Theorem update_dashboard_counts_approved :
  let w := Examples.awaiting in
  let w' := (Orchestrator.update_dashboard Examples.clock0 w).1 in
  length (Orchestrator.glob_md Pending_Approval w) = 1%nat
  ∧ length (Orchestrator.glob_md Approved w) = 0%nat
  ∧ ∃ d t,
      scripts_at Dashboard_md w' = Some (mk_entry (Regular [Dashboard d]) t)
      ∧ dd_pending_count d = 0%nat
      ∧ quick_stats d = [ py "| Pending Tasks | 0 |";
                          py "| Awaiting Approval | 0 |";
                          py "| Completed Today | 0 |" ]
      ∧ inbox_status d = [ py "| /Inbox | 0 |";
                           py "| /Needs_Action | 0 |";
                           py "| /Pending_Approval | 0 |" ].
Proof.
  cbv zeta. split; [vm_compute; reflexivity|].
  split; [vm_compute; reflexivity|].
  eexists _, _. split; [vm_compute; reflexivity|].
  repeat split; vm_compute; reflexivity.
Qed.

(** * The Intake pass *)

Section Intake_claims.

Import Orchestrator.

Variable clock : nat → datetime.

(** C7. With no markdown file in Intake, [process_needs_action] returns 0
    and the only thing it does is log that there is nothing to process: the
    vault, the scripts directory with its dashboard, and the clock are as
    they were. *)
Theorem process_needs_action_empty w :
  glob_md Needs_Action w = [] →
  process_needs_action clock w
  = (emit (mk_log_record INFO (py "No files to process in Needs_Action")
                         None) w,
     inr 0%nat).
Proof.
  intros H. unfold process_needs_action. rewrite bind_gets, H. reflexivity.
Qed.

(** C8. [process_needs_action] leaves the Intake directory as it is, and
    every directory of the vault other than [Plans] and [Logs]; in [Plans]
    an entry is as it was or is the plan, named [PLAN_<stem>.md], of a
    listed Intake file; in [Logs] a file is as it was or has gained lines
    of successful entries; in the scripts directory only [Dashboard.md] may
    differ. *)
Theorem process_needs_action_effects w :
  let w' := (process_needs_action clock w).1 in
  vault w' !! Needs_Action = vault w !! Needs_Action
  ∧ (∀ d, d ≠ Plans → d ≠ Logs → vault w' !! d = vault w !! d)
  ∧ (∀ d, is_Some (vault w' !! d) ↔ is_Some (vault w !! d))
  ∧ (∀ p, file_at Plans p w' = file_at Plans p w
          ∨ (has_plan p w'
             ∧ ∃ f, f ∈ glob_md Needs_Action w ∧ p = plan_name f))
  ∧ log_grows w w'
  ∧ scripts_frame w w'.
Proof.
  cbv zeta.
  destruct (process_needs_action_frame clock w)
    as (Hd & He & Hs & _ & Hp & Hl).
  destruct names_distinct as (_ & _ & _ & _ & _ & _ & ? & ? & _).
  split; [apply Hd; set_solver|].
  split; [intros d ? ?; apply Hd; set_solver|].
  split; [exact He|]. split; [exact Hp|]. split; [exact Hl|exact Hs].
Qed.

End Intake_claims.

Lemma process_needs_action_effects_witness :
  let w := Examples.batch in
  let w' := (Orchestrator.process_needs_action Examples.clock0 w).1 in
  vault w' !! Needs_Action = vault w !! Needs_Action
  ∧ vault w' !! Approved = vault w !! Approved
  ∧ has_plan (py "PLAN_a.md") w'.
Proof.
  cbv zeta.
  destruct (process_needs_action_effects Examples.clock0 Examples.batch)
    as (Hn & Hd & _ & Hp & _).
  split; [exact Hn|]. split.
  - apply Hd; discriminate.
  - destruct (Hp (py "PLAN_a.md")) as [He|[Hh _]]; [|exact Hh].
    exfalso. revert He. vm_compute. discriminate.
Defined.

Lemma process_needs_action_empty_witness :
  Orchestrator.glob_md Needs_Action Examples.idle = []
  ∧ (Orchestrator.process_needs_action Examples.clock0 Examples.idle).2
    = inr 0%nat
  ∧ fs_state (Orchestrator.process_needs_action Examples.clock0
                Examples.idle).1
    = fs_state Examples.idle.
Proof.
  assert (Orchestrator.glob_md Needs_Action Examples.idle = []) as H
    by (vm_compute; reflexivity).
  split; [exact H|].
  rewrite (process_needs_action_empty Examples.clock0 Examples.idle H).
  split; reflexivity.
Defined.

(** * One cycle *)

Section Blind.

Import Orchestrator.

Context {A B : Type}.

Lemma blind_ret (a : A) : journal_blind (ret a).
Proof. intros w1 w2 H. repeat split; [done|]. exists []. by rewrite !app_nil_r. Qed.

Lemma blind_raise (e : exn) : journal_blind (raise (A:=A) e).
Proof. intros w1 w2 H. repeat split; [done|]. exists []. by rewrite !app_nil_r. Qed.

Lemma blind_gets (f : world → A) :
  (∀ w1 w2, fs_state w1 = fs_state w2 → f w1 = f w2) → journal_blind (gets f).
Proof.
  intros Hf w1 w2 H. split; [done|]. split; [simpl; f_equal; by apply Hf|].
  exists []. by rewrite !app_nil_r.
Qed.

Lemma blind_bind (m : M A) (k : A → M B) :
  journal_blind m → (∀ a, journal_blind (k a)) → journal_blind (bind m k).
Proof.
  intros Hm Hk w1 w2 H. unfold bind.
  destruct (Hm w1 w2 H) as (Hfs & Hr & d & J1 & J2).
  destruct (m w1) as [w1' r1], (m w2) as [w2' r2]. simpl in *. subst r2.
  destruct r1 as [e|a]; simpl.
  { split; [done|]. split; [done|]. by exists d. }
  destruct (Hk a w1' w2' Hfs) as (Hfs' & Hr' & d' & J1' & J2').
  split; [done|]. split; [done|]. exists (d ++ d').
  rewrite J1', J2', J1, J2. by rewrite !app_assoc.
Qed.

Lemma blind_attempt (m : M A) : journal_blind m → journal_blind (attempt m).
Proof.
  intros Hm w1 w2 H. unfold attempt.
  destruct (Hm w1 w2 H) as (Hfs & Hr & d & J1 & J2).
  destruct (m w1) as [w1' r1], (m w2) as [w2' r2]. simpl in *. subst r2.
  split; [done|]. split; [done|]. by exists d.
Qed.

End Blind.

Import Orchestrator.

Ltac blind_prim :=
  intros [v s j1 t] [v' s' j2 t'] [= <- <- <-];
  cbv beta delta [now logger mkdir read_text stat_mtime write_vault
                  write_scripts rename file_at];
  simpl;
  repeat (case_match; simpl);
  (split; [done|split; [done|]]);
  first [ by (exists []; rewrite !app_nil_r) | by eexists [_] ].

(** Code that never reads the journal only appends to it. *)
Lemma blind_journal_prefix {A} (m : M A) w :
  journal_blind m → journal w `prefix_of` journal (m w).1.
Proof. intros H. destruct (H w w eq_refl) as (_ & _ & d & -> & _). by exists d. Qed.

Section Blind_prims.

Import Orchestrator.

Variable clock : nat → datetime.

Lemma now_blind : journal_blind (now clock).
Proof. blind_prim. Qed.
Lemma logger_blind l m e : journal_blind (logger l m e).
Proof. blind_prim. Qed.
Lemma mkdir_blind d : journal_blind (mkdir d).
Proof. blind_prim. Qed.
Lemma read_text_blind d n : journal_blind (read_text d n).
Proof. blind_prim. Qed.
Lemma stat_mtime_blind d n : journal_blind (stat_mtime d n).
Proof. blind_prim. Qed.
Lemma write_vault_blind a d n c : journal_blind (write_vault clock a d n c).
Proof. blind_prim. Qed.
Lemma write_scripts_blind n c : journal_blind (write_scripts clock n c).
Proof. blind_prim. Qed.
Lemma rename_blind d1 n1 d2 n2 : journal_blind (rename d1 n1 d2 n2).
Proof. blind_prim. Qed.
Lemma glob_md_blind d w1 w2 :
  fs_state w1 = fs_state w2 → glob_md d w1 = glob_md d w2.
Proof. intros [= H _ _]. unfold glob_md. by rewrite H. Qed.
End Blind_prims.

Create HintDb blind discriminated.

Ltac blind_gets_side :=
  let H := fresh in
  intros ? ? [= H _ _]; unfold glob_md; simpl; by rewrite H.

Ltac blind_step :=
  lazymatch goal with
  | |- journal_blind (bind _ _) => apply blind_bind; [|intros ?]
  | |- journal_blind (ret _) => apply blind_ret
  | |- journal_blind (raise _) => apply blind_raise
  | |- journal_blind (gets _) => apply blind_gets; blind_gets_side
  | |- journal_blind (attempt _) => apply blind_attempt
  | |- journal_blind (match ?r with _ => _ end) => destruct r
  | |- journal_blind (let _ := _ in _) => cbv zeta
  | |- journal_blind _ => solve [eauto with blind]
  end.

Ltac blind := repeat blind_step.

Global Hint Resolve now_blind logger_blind mkdir_blind read_text_blind
  stat_mtime_blind write_vault_blind write_scripts_blind rename_blind : blind.

Section Blind_ops.

Import Orchestrator.

Variable clock : nat → datetime.

Lemma _log_action_blind a t : journal_blind (_log_action clock a t).
Proof. unfold _log_action. blind. Qed.

Lemma _is_today_blind d n : journal_blind (_is_today clock d n).
Proof. unfold _is_today. blind. Qed.

Local Hint Resolve _log_action_blind _is_today_blind : blind.

Lemma filter_today_blind d fs : journal_blind (filter_today clock d fs).
Proof. induction fs as [|f fs IH]; simpl; blind. Qed.

Local Hint Resolve filter_today_blind : blind.

Lemma update_dashboard_blind : journal_blind (update_dashboard clock).
Proof. unfold update_dashboard. blind. Qed.

Lemma _create_plan_template_blind n :
  journal_blind (_create_plan_template clock n).
Proof. unfold _create_plan_template. blind. Qed.

Local Hint Resolve update_dashboard_blind _create_plan_template_blind : blind.

Lemma _process_single_file_blind f :
  journal_blind (_process_single_file clock f).
Proof. unfold _process_single_file. blind. Qed.

Lemma _execute_approved_action_blind f :
  journal_blind (_execute_approved_action clock f).
Proof. unfold _execute_approved_action. blind. Qed.

Local Hint Resolve _process_single_file_blind _execute_approved_action_blind
  : blind.

Lemma intake_loop_blind fs p : journal_blind (intake_loop clock fs p).
Proof. revert p. induction fs as [|f fs IH]; intros p; simpl; blind. Qed.

Lemma approved_loop_blind fs p : journal_blind (approved_loop clock fs p).
Proof. revert p. induction fs as [|f fs IH]; intros p; simpl; blind. Qed.

Local Hint Resolve intake_loop_blind approved_loop_blind : blind.

Lemma intake_trace_blind fs : journal_blind (intake_trace clock fs).
Proof. induction fs as [|f fs IH]; simpl; blind. Qed.

Lemma process_needs_action_blind : journal_blind (process_needs_action clock).
Proof. unfold process_needs_action. blind. Qed.

Lemma process_approved_blind : journal_blind (process_approved clock).
Proof. unfold process_approved. blind. Qed.

Local Hint Resolve process_needs_action_blind process_approved_blind : blind.

Lemma cycle_blind : journal_blind (cycle clock).
Proof. unfold cycle. blind. Qed.

Lemma run_once_unfold w :
  run_once clock w
  = match cycle clock (emit cycle_start w) with
    | (w', inr _) => (emit cycle_complete w', inr tt)
    | (w', inl e) => (w', inl e)
    end.
Proof.
  unfold run_once, cycle.
  erewrite bind_inr by reflexivity. fold cycle_start.
  set (w1 := emit cycle_start w).
  unfold bind.
  destruct (process_approved clock w1) as [w2 [e|a]]; [done|].
  destruct (process_needs_action clock w2) as [w3 [e|a']]; [done|].
  by destruct (update_dashboard clock w3) as [w4 [e|[]]].
Qed.

(** C9. [run_once] raises or returns as the sequence [process_approved],
    [process_needs_action], [update_dashboard] does from the same world, and
    leaves the same vault, scripts directory and clock; its journal is that
    of the sequence between the message that opens the cycle and, when
    nothing raised, the one that closes it. *)
Theorem run_once_is_cycle w :
  fs_state (run_once clock w).1 = fs_state (cycle clock w).1
  ∧ (run_once clock w).2 = (cycle clock w).2
  ∧ ∃ delta,
      journal (cycle clock w).1 = journal w ++ delta
      ∧ journal (run_once clock w).1
        = journal w ++ [cycle_start] ++ delta
          ++ (if is_raise (cycle clock w).2 then [] else [cycle_complete]).
Proof.
  rewrite run_once_unfold.
  destruct (cycle_blind (emit cycle_start w) w eq_refl)
    as (Hfs & Hr & d & J1 & J2).
  destruct (cycle clock (emit cycle_start w)) as [w1 r1].
  destruct (cycle clock w) as [w2 r2]. simpl in *. subst r2.
  destruct r1 as [e|[]]; simpl.
  - split; [done|]. split; [done|]. exists d. split; [done|].
    rewrite J1. by rewrite app_nil_r, <- !app_assoc.
  - split; [done|]. split; [done|]. exists d. split; [done|].
    rewrite J1. by rewrite <- !app_assoc.
Qed.
End Blind_ops.

(** * Partial failure of a batch *)

Section Batch.

Import Orchestrator.

Variable clock : nat → datetime.

Lemma intake_loop_step f fs p w :
  intake_loop clock (f :: fs) p w
  = let '(w1, r) := _process_single_file clock f w in
    intake_loop clock fs (if is_raise r then p else S p) (after_error f r w1).
Proof.
  simpl. unfold bind, attempt.
  by destruct (_process_single_file clock f w) as [w1 [e|[]]].
Qed.

Lemma intake_trace_step f fs w :
  intake_trace clock (f :: fs) w
  = let '(w1, r) := _process_single_file clock f w in
    match intake_trace clock fs (after_error f r w1) with
    | (w', inr l) => (w', inr ((f, r) :: l))
    | (w', inl e) => (w', inl e)
    end.
Proof.
  simpl. unfold bind, attempt.
  destruct (_process_single_file clock f w) as [w1 [e|[]]]; simpl;
    by destruct (intake_trace clock fs _) as [w' [e'|l]].
Qed.

Lemma succeeded_cons {K A} (k : K) (r : exn + A) l :
  succeeded ((k, r) :: l) = ((if is_raise r then 0 else 1) + succeeded l)%nat.
Proof.
  unfold succeeded. rewrite filter_cons. simpl.
  by destruct r.
Qed.

Lemma intake_loop_trace fs p w :
  ∃ l, intake_trace clock fs w = ((intake_loop clock fs p w).1, inr l)
       ∧ (intake_loop clock fs p w).2 = inr (p + succeeded l)%nat
       ∧ l.*1 = fs.
Proof.
  revert p w. induction fs as [|f fs IH]; intros p w.
  - exists []. simpl. repeat split. unfold succeeded. simpl. f_equal. lia.
  - rewrite intake_loop_step, intake_trace_step.
    destruct (_process_single_file clock f w) as [w1 r].
    destruct (IH (if is_raise r then p else S p) (after_error f r w1))
      as (l & Ht & Hr & Hl).
    exists ((f, r) :: l). rewrite Ht, Hr. repeat split.
    + f_equal. rewrite succeeded_cons. destruct r; simpl; lia.
    + by rewrite fmap_cons, Hl.
Qed.

Lemma process_needs_action_unfold w :
  let files := glob_md Needs_Action w in
  (files = [] ∧ raised clock w = [])
  ∨ ∃ l w2,
      l.*1 = files
      ∧ intake_trace clock files
          (emit (mk_log_record INFO
                   (py "Found " ++ str_of_nat (length files)
                    ++ py " file(s) to process") None) w)
        = (w2, inr l)
      ∧ process_needs_action clock w
        = (emit (mk_log_record INFO
                   (py "Processed " ++ str_of_nat (succeeded l)
                    ++ py " file(s)") None) w2,
           inr (succeeded l))
      ∧ raised clock w = (filter (fun o => is_raise (snd o)) l).*1.
Proof.
  cbv zeta. unfold raised, process_needs_action_trace, process_needs_action.
  rewrite !bind_gets.
  destruct (glob_md Needs_Action w) as [|f fs] eqn:Hg; [by left|right].
  set (files := f :: fs).
  erewrite !bind_inr by reflexivity.
  set (w1 := emit _ w).
  destruct (intake_loop_trace files 0 w1) as (l & Ht & Hr & Hl).
  destruct (intake_loop clock files 0 w1) as [w2 r] eqn:El. simpl in *.
  subst r. exists l, w2. split; [done|]. split; [done|].
  erewrite !bind_inr by done. done.
Qed.

Lemma _process_single_file_success f w w1 :
  _process_single_file clock f w = (w1, inr tt) →
  has_plan (plan_name f) w1.
Proof.
  unfold _process_single_file.
  erewrite bind_inr by reflexivity. set (w0 := emit _ w).
  destruct (read_text Needs_Action f w0) as [wa [ex|b]] eqn:Er.
  { erewrite bind_inl by done. done. }
  erewrite bind_inr by done.
  destruct (_log_action clock (py "process_file") f wa) as [wb [ex|[]]] eqn:El.
  { erewrite bind_inl by done. done. }
  erewrite bind_inr by done. cbv zeta.
  unfold _create_plan_template.
  erewrite bind_inr by reflexivity.
  set (wc := tick wb). set (pd := mk_plan_doc _ _ _).
  destruct (write_vault_inv clock false Plans (plan_name f) (Plan pd) wc)
    as [[Hw Hx]|(es & b0 & Hd & Hb & Hwr)].
  { destruct (write_vault clock false Plans (plan_name f) (Plan pd) wc)
      as [wd [ex|[]]] eqn:Ew; [|done].
    erewrite bind_inl by done. done. }
  erewrite bind_inr by done.
  set (wd := tick (set_vault _ wc)).
  intros Hfin.
  assert (only_dashboard wd w1) as Hod.
  { replace w1 with
      ((logger INFO (py "Created plan: " ++ plan_name f) None;;
        update_dashboard clock)%M wd).1 by (by rewrite Hfin).
    refine ((_ : preserves only_dashboard _) wd). pres. }
  unfold has_plan. rewrite (only_dashboard_file_at _ _ _ _ Hod).
  unfold wd. rewrite (file_at_write Plans (plan_name f) _ es wc _ _ Hd).
  rewrite bool_decide_eq_true_2 by done. by eexists _, _.
Qed.

Lemma intake_trace_plans_kept fs : preserves plans_kept (intake_trace clock fs).
Proof.
  intros w. destruct (intake_loop_trace fs 0 w) as (l & -> & _ & _). simpl.
  by destruct (intake_loop_frame clock fs fs 0 (reflexivity _) w)
    as (_ & _ & _ & Hk & _).
Qed.

Lemma intake_trace_plans fs w w' l :
  intake_trace clock fs w = (w', inr l) →
  ∀ j, (j, inr tt) ∈ l → has_plan (plan_name j) w'.
Proof.
  revert w w' l. induction fs as [|f fs IH]; intros w w' l.
  - simpl. intros [= <- <-] j Hj. by apply elem_of_nil in Hj.
  - rewrite intake_trace_step.
    destruct (_process_single_file clock f w) as [w1 r] eqn:Ef.
    destruct (intake_trace clock fs (after_error f r w1)) as [w2 [e|l2]] eqn:Et;
      [done|].
    intros [= <- <-] j Hj. apply elem_of_cons in Hj as [[= <- <-]|Hj].
    + pose proof (intake_trace_plans_kept fs (after_error j (inr ()) w1)) as Hk.
      rewrite Et in Hk. apply Hk. simpl.
      by apply (_process_single_file_success j w).
    + by apply (IH _ _ _ Et).
Qed.

Lemma intake_trace_errors fs w w' l :
  intake_trace clock fs w = (w', inr l) →
  ∀ j e, (j, inl e) ∈ l →
    mk_log_record ERROR (py "Error processing " ++ j ++ py ": ") (Some e)
    ∈ journal w'.
Proof.
  revert w w' l. induction fs as [|f fs IH]; intros w w' l.
  - simpl. intros [= <- <-] j e Hj. by apply elem_of_nil in Hj.
  - rewrite intake_trace_step.
    destruct (_process_single_file clock f w) as [w1 r] eqn:Ef.
    destruct (intake_trace clock fs (after_error f r w1)) as [w2 [e'|l2]] eqn:Et;
      [done|].
    intros [= <- <-] j e Hj. apply elem_of_cons in Hj as [[= <- <-]|Hj].
    + pose proof (blind_journal_prefix _ (after_error j (inl e) w1)
                    (intake_trace_blind clock fs)) as Hpre.
      rewrite Et in Hpre. simpl in Hpre.
      eapply elem_of_prefix; [|exact Hpre]. set_solver.
    + by apply (IH _ _ _ Et).
Qed.

(** The instrumented pass does what [process_needs_action] does. *)
Lemma process_needs_action_trace_world w :
  (process_needs_action_trace clock w).1 = (process_needs_action clock w).1.
Proof.
  unfold process_needs_action_trace, process_needs_action.
  rewrite !bind_gets.
  destruct (glob_md Needs_Action w) as [|f fs]; [done|].
  set (files := f :: fs).
  erewrite !bind_inr by reflexivity.
  set (w1 := emit _ w).
  destruct (intake_loop_trace files 0 w1) as (l & Ht & Hr & _).
  destruct (intake_loop clock files 0 w1) as [w2 r] eqn:El. simpl in *.
  subst r. by erewrite !bind_inr by done.
Qed.

(** C6. When exactly one Intake file, [k], raises while being processed,
    [process_needs_action] logs the error of [k], returns the number of
    listed files minus one, and every listed file other than [k] has its
    plan in [Plans] at the end. *)
Theorem process_needs_action_partial w k :
  raised clock w = [k] →
  let files := glob_md Needs_Action w in
  let r := process_needs_action clock w in
  k ∈ files
  ∧ (∃ e, mk_log_record ERROR (py "Error processing " ++ k ++ py ": ")
                        (Some e) ∈ journal r.1)
  ∧ r.2 = inr (length files - 1)%nat
  ∧ ∀ j, j ∈ files → j ≠ k → has_plan (plan_name j) r.1.
Proof.
  intros Hk. cbv zeta.
  destruct (process_needs_action_unfold w)
    as [[_ Hr]|(l & w2 & Hl & Ht & Hp & Hr)]; [congruence|].
  rewrite Hr in Hk. rewrite Hp. simpl. rewrite <- Hl.
  set (F := filter (fun o : str * (exn + ()) => is_raise o.2) l) in *.
  assert (∃ r, (k, r) ∈ F) as [rk HkF].
  { assert (k ∈ F.*1) as Hin by (rewrite Hk; set_solver).
    apply list_elem_of_fmap in Hin as ([k' r] & -> & Hin). by exists r. }
  apply list_elem_of_filter in HkF as [Hraise HkF].
  split; [|split; [|split]].
  - apply list_elem_of_fmap. by exists (k, rk).
  - destruct rk as [e|[]]; [|done]. exists e.
    eapply elem_of_prefix; [by apply (intake_trace_errors _ _ _ _ Ht)|].
    simpl. by apply prefix_app_r.
  - f_equal. rewrite length_fmap.
    pose proof (filter_app_complement
                  (fun o : str * (exn + ()) => is_raise o.2) l) as Hperm.
    apply Permutation_length in Hperm. rewrite length_app in Hperm.
    assert (length F = 1%nat) as HF
      by (rewrite <- (length_fmap fst), Hk; done).
    unfold succeeded. fold F in Hperm. lia.
  - intros j Hj Hne.
    apply list_elem_of_fmap in Hj as ([j' r] & -> & Hj). simpl in *.
    destruct r as [e|[]].
    + exfalso. apply Hne.
      assert (j' ∈ F.*1) as Hin.
      { apply list_elem_of_fmap. exists (j', inl e). split; [done|].
        by apply list_elem_of_filter. }
      rewrite Hk in Hin. set_solver.
    + by apply (intake_trace_plans _ _ _ _ Ht).
Qed.
End Batch.

Lemma process_needs_action_partial_witness :
  Orchestrator.raised Examples.clock0 Examples.batch = [py "b.md"]
  ∧ (Orchestrator.process_needs_action Examples.clock0 Examples.batch).2
    = inr 2%nat
  ∧ has_plan (py "PLAN_a.md")
      (Orchestrator.process_needs_action Examples.clock0 Examples.batch).1
  ∧ has_plan (py "PLAN_c.md")
      (Orchestrator.process_needs_action Examples.clock0 Examples.batch).1.
Proof.
  assert (Orchestrator.raised Examples.clock0 Examples.batch = [py "b.md"])
    as Hk by (vm_compute; reflexivity).
  destruct (process_needs_action_partial Examples.clock0 Examples.batch
              (py "b.md") Hk) as (_ & _ & Hr & Hp).
  split; [exact Hk|]. split; [rewrite Hr; vm_compute; reflexivity|].
  split.
  - apply (Hp (py "a.md")); [compute_done|discriminate].
  - apply (Hp (py "c.md")); [compute_done|discriminate].
Defined.

(** * The action log *)

Section Logging.

Import Orchestrator.

Variable clock : nat → datetime.

Lemma write_vault_ok a d n c w es b :
  vault w !! d = Some es → body_of (es !! n) = Some b →
  write_vault clock a d n c w
  = (tick (set_vault
             <[d := <[n := mk_entry (Regular (if a then b ++ [c] else [c]))
                                    (clock (ticks w))]> es]> w),
     inr tt).
Proof.
  intros Hd Hb. unfold write_vault. rewrite Hd. unfold put.
  destruct (es !! n) as [[[b'|?] ?]|]; simpl in Hb; [|done|].
  - by injection Hb as ->.
  - injection Hb as <-. by destruct a.
Qed.

Lemma run_once_log_grows : preserves log_grows (run_once clock).
Proof.
  assert (preserves log_grows (process_approved clock)) as HA.
  { intros w. by destruct (process_approved_frame clock w)
      as (_ & _ & _ & _ & H). }
  assert (preserves log_grows (process_needs_action clock)) as HN.
  { intros w. by destruct (process_needs_action_frame clock w)
      as (_ & _ & _ & _ & _ & H). }
  unfold run_once. pres.
Qed.

Lemma _execute_approved_action_logs_first n b t w ls old :
  file_at Approved n w = Some (mk_entry (Regular b) t) →
  vault w !! Logs = Some ls →
  let key := strftime_Ymd (clock (S (ticks w))) ++ py ".jsonl" in
  body_of (ls !! key) = Some old →
  (vault w !! Done = None
   ∨ ∃ em tm, file_at Done n w = Some (mk_entry (Directory em) tm)) →
  let r := _execute_approved_action clock n w in
  is_raise r.2 = true
  ∧ file_at Approved n r.1 = Some (mk_entry (Regular b) t)
  ∧ file_at Logs key r.1
    = Some (mk_entry
              (Regular (old ++ [JsonLine (approved_entry (clock (ticks w)) n)]))
              (clock (S (S (ticks w))))).
Proof.
  intros Hf HL key Hold HD. cbv zeta.
  unfold _execute_approved_action.
  erewrite bind_inr by reflexivity. set (w1 := emit _ w).
  erewrite (bind_inr (read_text Approved n)); cycle 1.
  { unfold read_text. fold (file_at Approved n w1).
    change (file_at Approved n w1) with (file_at Approved n w).
    by rewrite Hf. }
  erewrite (bind_inr (_log_action _ _ _)); cycle 1.
  { unfold _log_action. unfold now at 1.
    erewrite bind_inr by reflexivity. unfold now at 1.
    erewrite bind_inr by reflexivity. cbv zeta.
    apply (write_vault_ok true Logs _ _ _ ls old); [exact HL|exact Hold]. }
  fold (approved_entry (clock (ticks w1)) n). fold key.
  set (w3 := tick (set_vault _ _)).
  assert (file_at Approved n w3 = Some (mk_entry (Regular b) t)) as HA3.
  { unfold w3. rewrite (file_at_write Logs _ _ ls (tick (tick w1)) _ _ HL).
    rewrite bool_decide_eq_false_2; [done|]. intros [? _]. done. }
  assert (vault w3 !! Done = vault w !! Done) as HD3.
  { unfold w3. simpl. rewrite lookup_insert_ne; [done|compute_done]. }
  assert (∃ ex, rename Approved n Done n w3 = (w3, inl ex)) as [ex Hren].
  { unfold rename. fold (file_at Approved n w3). rewrite HA3, HD3.
    destruct HD as [->|(em & tm & HDn)]; [by eexists|].
    unfold file_at in HDn.
    destruct (vault w !! Done) as [es2|]; [|done]. simpl in HDn.
    rewrite bool_decide_eq_false_2 by (intros [? _]; done).
    rewrite HDn. simpl. by eexists. }
  erewrite bind_inl by exact Hren. simpl.
  split; [done|]. split; [done|].
  unfold w3. rewrite (file_at_write Logs _ _ ls (tick (tick w1)) _ _ HL).
  by rewrite bool_decide_eq_true_2.
Qed.

(** C10. Whatever [run_once], [process_approved] or [process_needs_action]
    appends to a log is a line whose entry has the result "success" (and the
    actor "orchestrator"). And when an approved regular file cannot be
    renamed, because [Done] is missing or holds a directory of that name,
    [_execute_approved_action] raises, the file is still in [Approved], and
    the day's log ends with the file's [execute_approved] entry. *)
Theorem log_entries_all_success :
  (∀ w, log_grows w (run_once clock w).1
        ∧ log_grows w (process_approved clock w).1
        ∧ log_grows w (process_needs_action clock w).1)
  ∧ ∀ n b t w ls old,
      file_at Approved n w = Some (mk_entry (Regular b) t) →
      vault w !! Logs = Some ls →
      let key := strftime_Ymd (clock (S (ticks w))) ++ py ".jsonl" in
      body_of (ls !! key) = Some old →
      (vault w !! Done = None
       ∨ ∃ em tm, file_at Done n w = Some (mk_entry (Directory em) tm)) →
      let r := _execute_approved_action clock n w in
      is_raise r.2 = true
      ∧ file_at Approved n r.1 = Some (mk_entry (Regular b) t)
      ∧ file_at Logs key r.1
        = Some (mk_entry
                  (Regular (old ++ [JsonLine
                                      (approved_entry (clock (ticks w)) n)]))
                  (clock (S (S (ticks w)))))
      ∧ successful (approved_entry (clock (ticks w)) n).
Proof.
  split.
  - intros w. split; [apply run_once_log_grows|]. split.
    + by destruct (process_approved_frame clock w) as (_ & _ & _ & _ & H).
    + by destruct (process_needs_action_frame clock w)
        as (_ & _ & _ & _ & _ & H).
  - intros n b t w ls old Hf HL key Hold HD. cbv zeta.
    destruct (_execute_approved_action_logs_first n b t w ls old Hf HL Hold HD)
      as (H1 & H2 & H3).
    by repeat split.
Qed.

End Logging.

Lemma log_entries_all_success_witness :
  let w := Examples.approved_no_done in
  let r := Orchestrator._execute_approved_action Examples.clock0
             (py "request.md") w in
  is_raise r.2 = true
  ∧ file_at Approved (py "request.md") r.1
    = Some (Examples.text "pay" Examples.yesterday)
  ∧ file_at Logs (py "2026-11-04.jsonl") r.1
    = Some (mk_entry
              (Regular [JsonLine (approved_entry Examples.today
                                    (py "request.md"))])
              Examples.today).
Proof.
  cbv zeta.
  destruct (proj2 (log_entries_all_success Examples.clock0)
              (py "request.md") [Raw (py "pay")] Examples.yesterday
              Examples.approved_no_done ∅ [])
    as (H1 & H2 & H3 & _).
  - vm_compute. reflexivity.
  - vm_compute. reflexivity.
  - vm_compute. reflexivity.
  - left. vm_compute. reflexivity.
  - split; [exact H1|]. split; [exact H2|exact H3].
Defined.

(** * Further properties of [BaseWatcher.sanitize_filename] *)

Section More_strings.

Import BaseWatcher.

Implicit Types (s name : str) (c : N).

Lemma lstrip_nil_iff s : lstrip s = [] ↔ Forall (fun c => isspace c = true) s.
Proof.
  induction s as [|c s IH]; simpl; [by split|].
  destruct (isspace c) eqn:Hc.
  - rewrite IH. split; [by constructor|by inversion 1].
  - split; [done|]. inversion 1; congruence.
Qed.

Lemma strip_nil_iff s : strip s = [] ↔ Forall (fun c => isspace c = true) s.
Proof.
  split.
  - intros H. destruct (lstrip_split s) as (pre & E & Hpre).
    destruct (rstrip_split (lstrip s)) as (post & E' & Hpost).
    unfold strip in H. rewrite H in E'. simpl in E'.
    rewrite E, E'. by apply Forall_app.
  - intros H. apply lstrip_nil_iff in H. unfold strip. by rewrite H.
Qed.

(** No invalid character is a whitespace character, nor is the underscore:
    the replacements do not change what [strip] removes. *)
Lemma isspace_clean c : isspace (clean invalid_chars c) = isspace c.
Proof.
  unfold clean. case_bool_decide as H; [|done].
  unfold invalid_chars in H.
  repeat (apply elem_of_cons in H as [->|H]; [by vm_compute|]).
  by apply elem_of_nil in H.
Qed.

(** X1. The sanitised name is empty exactly when the name consists of
    whitespace only (the empty name included): such a string yields no
    usable file name. *)
Theorem sanitize_filename_empty name :
  sanitize_filename name = [] ↔ Forall (fun c => isspace c = true) name.
Proof.
  rewrite sanitize_filename_map, strip_nil_iff, Forall_fmap.
  apply Forall_proper; [|done]. intros c. simpl. by rewrite isspace_clean.
Qed.

(** X2. The names that sanitisation leaves as they are, are exactly those
    that hold no character of [invalid_chars] and neither start nor end with
    a whitespace character. *)
Theorem sanitize_filename_fixed name :
  sanitize_filename name = name
  ↔ (∀ c, c ∈ invalid_chars → c ∉ name) ∧ trimmed name.
Proof.
  split.
  - intros H. split.
    + intros c Hc. rewrite <- H. by apply sanitize_filename_clean.
    + rewrite <- H. unfold sanitize_filename. apply strip_trimmed.
  - intros [Hc Ht]. rewrite sanitize_filename_map, map_clean_fixed.
    + by apply trimmed_strip.
    + intros c Hin Hinv. by apply (Hc c).
Qed.

End More_strings.

Lemma sanitize_filename_empty_witness :
  Forall (fun c => isspace c = true) (py "  ")
  ∧ BaseWatcher.sanitize_filename (py "  ") = [].
Proof.
  assert (Forall (fun c => isspace c = true) (py "  ")) as H
    by (repeat constructor).
  split; [exact H|]. by apply (proj2 (sanitize_filename_empty (py "  "))).
Defined.

Lemma sanitize_filename_fixed_witness :
  BaseWatcher.sanitize_filename (py "report 2026.md") = py "report 2026.md"
  ∧ trimmed (py "report 2026.md").
Proof.
  assert (BaseWatcher.sanitize_filename (py "report 2026.md")
          = py "report 2026.md") as H by (vm_compute; reflexivity).
  split; [exact H|].
  exact (proj2 (proj1 (sanitize_filename_fixed (py "report 2026.md")) H)).
Defined.

(** * Plan names *)

Section Stems.

Implicit Types (s name x : str) (c : N).

Lemma rfind_None c s : c ∉ s → rfind c s = None.
Proof.
  induction s as [|a s IH]; simpl; [done|]. intros H.
  rewrite IH by set_solver.
  destruct (N.eqb_spec a c) as [->|]; [set_solver|done].
Qed.

Lemma rfind_last c x t : c ∉ t → rfind c (x ++ c :: t) = Some (length x).
Proof.
  intros H. induction x as [|a x IH]; simpl.
  - by rewrite rfind_None, N.eqb_refl.
  - by rewrite IH.
Qed.

Lemma endswith_split sfx s : endswith sfx s = true → ∃ x, s = x ++ sfx.
Proof.
  unfold endswith. intros H%bool_decide_eq_true.
  exists (take (length s - length sfx) s).
  rewrite <- H at 2. by rewrite take_drop.
Qed.

Lemma endswith_app sfx x : endswith sfx (x ++ sfx) = true.
Proof.
  unfold endswith. apply bool_decide_eq_true.
  rewrite length_app. replace (length x + length sfx - length sfx)%nat
    with (length x) by lia.
  by rewrite drop_app_length.
Qed.

(** The stem of a name that ends in [.md] is what precedes that suffix,
    unless nothing does: the stem of [.md] is [.md]. *)
Lemma stem_md x : stem (x ++ dot_md) = if decide (x = []) then dot_md else x.
Proof.
  unfold stem, dot_md.
  change (py ".md") with [46; 109; 100].
  rewrite (rfind_last 46 x [109; 100]) by compute_done.
  destruct x as [|a x]; [done|].
  rewrite bool_decide_eq_true_2.
  - by rewrite take_app_length.
  - rewrite length_app. simpl. lia.
Qed.

(** X3. Two markdown files of Intake get the same plan name only if they
    are the same file, or are the two files [.md] and [.md.md]: but for that
    pair, plans are one-to-one with Intake files. *)
Theorem plan_name_collision f g :
  endswith dot_md f = true → endswith dot_md g = true →
  plan_name f = plan_name g →
  f = g ∨ (f = py ".md" ∧ g = py ".md.md") ∨ (f = py ".md.md" ∧ g = py ".md").
Proof.
  intros [x ->]%endswith_split [y ->]%endswith_split. unfold plan_name.
  intros H%app_inv_head%app_inv_tail. rewrite !stem_md in H.
  destruct (decide (x = [])) as [->|Hx], (decide (y = [])) as [->|Hy].
  - by left.
  - right. left. by rewrite <- H.
  - right. right. by rewrite H.
  - left. by rewrite H.
Qed.

End Stems.

Lemma plan_name_collision_witness :
  endswith dot_md (py ".md") = true ∧ endswith dot_md (py ".md.md") = true
  ∧ plan_name (py ".md") = plan_name (py ".md.md")
  ∧ (py ".md" = py ".md.md"
     ∨ (py ".md" = py ".md" ∧ py ".md.md" = py ".md.md")
     ∨ (py ".md" = py ".md.md" ∧ py ".md.md" = py ".md")).
Proof.
  split; [reflexivity|]. split; [reflexivity|]. split; [reflexivity|].
  apply plan_name_collision; reflexivity.
Defined.

(** * Construction and the dashboard *)

Section Dashboard_more.

Import Orchestrator Ghost.

Variable clock : nat → datetime.

Lemma init_returns w : init clock w = ((init clock w).1, inr tt).
Proof.
  unfold init. do 4 (erewrite bind_inr by apply mkdir_ret). reflexivity.
Qed.


Lemma glob_md_elem d w f : f ∈ glob_md d w → is_Some (file_at d f w).
Proof.
  unfold glob_md, file_at. destruct (vault w !! d) as [es|]; [|set_solver].
  intros [_ H]%list_elem_of_filter. simpl. unfold scandir in H.
  apply list_elem_of_fmap in H as ([k e] & -> & H).
  apply elem_of_map_to_list in H. by exists e.
Qed.

Lemma ticked_0 w : ticked 0 w = w.
Proof. destruct w. unfold ticked. simpl. f_equal. lia. Qed.

Lemma ticked_S n w : ticked n (tick w) = ticked (S n) w.
Proof. unfold ticked, tick. simpl. f_equal. lia. Qed.

Lemma filter_today_listing d fs w :
  (∀ f, f ∈ fs → is_Some (file_at d f w)) →
  ∃ l, filter_today clock d fs w = (ticked (length fs) w, inr l)
       ∧ ∀ D, (∀ i, (i < length fs)%nat → date (clock (ticks w + i)) = D) →
              l = filter (fun f => modified_on D d w f) fs.
Proof.
  revert w. induction fs as [|f fs IH]; intros w Hfs.
  - exists []. simpl. by rewrite ticked_0.
  - destruct (Hfs f) as [e He]; [set_solver|].
    destruct (IH (tick w)) as (l & Hl & HD); [intros g Hg; apply Hfs; set_solver|].
    simpl. unfold _is_today, now.
    erewrite bind_inr; cycle 1.
    { erewrite bind_inr by reflexivity.
      erewrite bind_inr; [reflexivity|].
      unfold stat_mtime. fold (file_at d f (tick w)).
      change (file_at d f (tick w)) with (file_at d f w). by rewrite He. }
    erewrite bind_inr by exact Hl.
    eexists. split; [by rewrite ticked_S|].
    intros D HDc.
    assert (modified_on D d w f = bool_decide (date (e_mtime e) = D)) as Hm
      by (unfold modified_on; by rewrite He).
    rewrite (HD D); cycle 1.
    { intros i Hi. simpl.
      replace (S (ticks w + i)) with (ticks w + S i)%nat by lia.
      apply HDc. lia. }
    replace (clock (ticks w)) with (clock (ticks w + 0)) by (f_equal; lia).
    rewrite (HDc 0%nat) by (simpl; lia). rewrite <- Hm.
    assert (∀ g, modified_on D d (tick w) g = modified_on D d w g) as Ht by done.
    destruct (modified_on D d w f) eqn:Hb.
    + rewrite filter_cons_True by (by rewrite Hb). reflexivity.
    + rewrite filter_cons_False by (rewrite Hb; by intros []). reflexivity.
Qed.

Lemma write_scripts_blocked c w :
  dashboard_blocked w = true →
  ∃ e, write_scripts clock Dashboard_md c w = (w, inl e).
Proof.
  unfold dashboard_blocked, write_scripts, put.
  destruct (scripts w) as [es|]; [|by eexists].
  destruct (es !! Dashboard_md) as [[[b|em] t]|]; try done. by eexists.
Qed.

Lemma write_scripts_free c w :
  dashboard_blocked w = false →
  ∃ es, scripts w = Some es
        ∧ write_scripts clock Dashboard_md c w
          = (tick (set_scripts
                     (Some (<[Dashboard_md := mk_entry (Regular [c])
                                                       (clock (ticks w))]> es))
                     w),
             inr tt).
Proof.
  unfold dashboard_blocked, write_scripts, put.
  destruct (scripts w) as [es|]; [|done]. intros H. exists es.
  by destruct (es !! Dashboard_md) as [[[b|em] t]|].
Qed.

Lemma update_dashboard_run w :
  ∃ l,
    update_dashboard clock w
    = (write_scripts clock Dashboard_md (Dashboard (rendered clock w l));;
       logger INFO (py "Dashboard updated") None)%M
        (ticked (length (glob_md Done w) + 2)
           (emit (mk_log_record DEBUG (py "Updating dashboard") None) w))
    ∧ l `sublist_of` glob_md Done w
    ∧ ∀ D, (∀ i, (i < length (glob_md Done w))%nat
                 → date (clock (ticks w + i)) = D) →
           l = filter (fun f => modified_on D Done w f) (glob_md Done w).
Proof.
  unfold update_dashboard.
  erewrite bind_inr by reflexivity. set (w0 := emit _ w).
  rewrite !bind_gets.
  change (glob_md Done w0) with (glob_md Done w).
  destruct (filter_today_listing Done (glob_md Done w) w0) as (l & Hl & HD).
  { intros f Hf. by apply (glob_md_elem Done w). }
  exists l. erewrite bind_inr by exact Hl. cbv zeta.
  unfold now at 1. erewrite bind_inr by reflexivity.
  unfold now at 1. erewrite bind_inr by reflexivity.
  split; [|split; [by eapply filter_today_sublist|exact HD]].
  unfold rendered, ticked, tick. simpl.
  replace (ticks w + (length (glob_md Done w) + 2))%nat
    with (S (S (ticks w + length (glob_md Done w)))) by lia.
  replace (ticks w + length (glob_md Done w) + 1)%nat
    with (S (ticks w + length (glob_md Done w))) by lia.
  reflexivity.
Qed.

Lemma update_dashboard_raise_blocked w :
  is_raise (update_dashboard clock w).2 = dashboard_blocked w.
Proof.
  destruct (update_dashboard_run w) as (l & -> & _).
  set (w3 := ticked _ _).
  assert (dashboard_blocked w3 = dashboard_blocked w) as Hb by done.
  destruct (dashboard_blocked w) eqn:Hw.
  - destruct (write_scripts_blocked (Dashboard (rendered clock w l)) w3 Hb) as [e He].
    by erewrite bind_inl by exact He.
  - destruct (write_scripts_free (Dashboard (rendered clock w l)) w3 Hb)
      as (es & _ & He).
    by erewrite bind_inr by exact He.
Qed.

End Dashboard_more.

Section Dashboard_content.

Import Orchestrator Ghost.

Variable clock : nat → datetime.

Lemma update_dashboard_free w :
  dashboard_blocked w = false →
  ∃ l es,
    scripts w = Some es
    ∧ l `sublist_of` glob_md Done w
    ∧ (∀ D, (∀ i, (i < length (glob_md Done w))%nat
                  → date (clock (ticks w + i)) = D) →
            l = filter (fun f => modified_on D Done w f) (glob_md Done w))
    ∧ update_dashboard clock w
      = (emit (mk_log_record INFO (py "Dashboard updated") None)
           (tick (set_scripts
              (Some (<[Dashboard_md :=
                         mk_entry (Regular [Dashboard (rendered clock w l)])
                           (clock (ticks w + length (glob_md Done w) + 2))]>
                       es))
              (ticked (length (glob_md Done w) + 2)
                 (emit (mk_log_record DEBUG (py "Updating dashboard") None)
                       w)))),
         inr tt).
Proof.
  intros Hb. destruct (update_dashboard_run clock w) as (l & Hrun & Hsub & HD).
  set (w3 := ticked _ _) in Hrun.
  destruct (write_scripts_free clock (Dashboard (rendered clock w l)) w3)
    as (es & Hes & Hw); [done|].
  exists l, es. split; [done|]. split; [done|]. split; [done|].
  rewrite Hrun. erewrite bind_inr by exact Hw.
  unfold logger.
  replace (ticks w3) with (ticks w + length (glob_md Done w) + 2)%nat
    by (unfold w3; simpl; lia).
  reflexivity.
Qed.


(** X7. When the date [D] of the clock does not change while the entries
    of [Done] are examined, "Completed Today" is the number of entries of
    [Done] named [*.md], files or directories, whose modification date is
    [D]. *)
Theorem update_dashboard_done_today w D :
  dashboard_blocked w = false →
  (∀ i, (i < length (glob_md Done w))%nat → date (clock (ticks w + i)) = D) →
  ∃ d t,
    scripts_at Dashboard_md (update_dashboard clock w).1
    = Some (mk_entry (Regular [Dashboard d]) t)
    ∧ dd_done_today d
      = length (filter (fun f => modified_on D Done w f) (glob_md Done w)).
Proof.
  intros Hb HD.
  destruct (update_dashboard_free w Hb) as (l & es & Hes & _ & Hl & ->).
  eexists _, _. split.
  - unfold scripts_at. simpl. by rewrite lookup_insert_eq.
  - simpl. by rewrite (Hl D HD).
Qed.

(** X8. Regenerating the dashboard twice in a row on the same day: the
    second regeneration returns too, the vault is untouched, and the two
    dashboards carry the same four counts. *)
Theorem update_dashboard_twice w D :
  dashboard_blocked w = false →
  (∀ n, date (clock n) = D) →
  let w1 := (update_dashboard clock w).1 in
  let w2 := (update_dashboard clock w1).1 in
  (update_dashboard clock w1).2 = inr tt
  ∧ vault w2 = vault w
  ∧ ∃ d1 d2 t1 t2,
      scripts_at Dashboard_md w1 = Some (mk_entry (Regular [Dashboard d1]) t1)
      ∧ scripts_at Dashboard_md w2
        = Some (mk_entry (Regular [Dashboard d2]) t2)
      ∧ dd_needs_action_count d2 = dd_needs_action_count d1
      ∧ dd_pending_count d2 = dd_pending_count d1
      ∧ dd_done_today d2 = dd_done_today d1
      ∧ dd_inbox_count d2 = dd_inbox_count d1.
Proof.
  intros Hb HD. cbv zeta.
  destruct (update_dashboard_free w Hb) as (l & es & Hes & _ & Hl & Hu).
  rewrite Hu. simpl. set (w1 := emit _ (tick _)).
  assert (dashboard_blocked w1 = false) as Hb1.
  { unfold dashboard_blocked, w1. simpl. by rewrite lookup_insert_eq. }
  assert (vault w1 = vault w) as Hv by done.
  destruct (update_dashboard_free w1 Hb1)
    as (l1 & es1 & Hes1 & _ & Hl1 & Hu1).
  rewrite Hu1. simpl. split; [done|]. split; [done|].
  eexists _, _, _, _. split.
  { unfold scripts_at. simpl. by rewrite lookup_insert_eq. }
  split.
  { unfold scripts_at. simpl. by rewrite lookup_insert_eq. }
  simpl. repeat split.
  rewrite (Hl D), (Hl1 D) by (intros; apply HD). done.
Qed.
End Dashboard_content.


Lemma update_dashboard_done_today_witness :
  dashboard_blocked More_examples.done_mix = false
  ∧ ∃ d t,
      scripts_at Dashboard_md
        (Orchestrator.update_dashboard Examples.clock0
           More_examples.done_mix).1
      = Some (mk_entry (Regular [Dashboard d]) t)
      ∧ dd_done_today d = 2%nat.
Proof.
  split; [reflexivity|].
  destruct (update_dashboard_done_today Examples.clock0 More_examples.done_mix
              (2026, 11, 4)) as (d & t & Hd & Hn); [reflexivity|done|].
  exists d, t. split; [exact Hd|]. rewrite Hn. vm_compute. reflexivity.
Defined.

Lemma update_dashboard_twice_witness :
  dashboard_blocked More_examples.done_mix = false
  ∧ (Orchestrator.update_dashboard Examples.clock0
       (Orchestrator.update_dashboard Examples.clock0
          More_examples.done_mix).1).2 = inr tt.
Proof.
  split; [reflexivity|].
  exact (proj1 (update_dashboard_twice Examples.clock0 More_examples.done_mix
                  (2026, 11, 4) eq_refl (fun _ => eq_refl))).
Defined.

(** * When the dashboard cannot be written *)

Global Instance blocked_same_preorder : PreOrder blocked_same.
Proof.
  split.
  - by intros w.
  - intros w1 w2 w3 H1 H2. unfold blocked_same in *. congruence.
Qed.

Lemma scripts_same_blocked w w' : scripts w' = scripts w → blocked_same w w'.
Proof. intros H. unfold blocked_same, dashboard_blocked. by rewrite H. Qed.

Section Blocked.

Import Orchestrator Ghost.

Variable clock : nat → datetime.

Lemma now_blocked_same : preserves blocked_same (now clock).
Proof. by intros w. Qed.

Lemma logger_blocked_same l m e : preserves blocked_same (logger l m e).
Proof. by intros w. Qed.

Lemma read_text_blocked_same d n : preserves blocked_same (read_text d n).
Proof. intros w. by rewrite read_text_same. Qed.

Lemma stat_mtime_blocked_same d n : preserves blocked_same (stat_mtime d n).
Proof.
  intros w. unfold stat_mtime. by destruct (vault w !! d ≫= (.!! n)).
Qed.

Lemma write_vault_blocked_same a d n c :
  preserves blocked_same (write_vault clock a d n c).
Proof.
  intros w.
  by destruct (write_vault_inv clock a d n c w) as [[-> _]|(? & ? & _ & _ & ->)].
Qed.

Lemma rename_blocked_same m : preserves blocked_same (rename Approved m Done m).
Proof.
  intros w.
  destruct (rename_inv Approved m Done m w) as [[-> _]|(? & _ & _ & ->)];
    [compute_done|done|done].
Qed.

Lemma write_scripts_blocked_same c :
  preserves blocked_same (write_scripts clock Dashboard_md c).
Proof.
  intros w. destruct (dashboard_blocked w) eqn:Hb.
  - by destruct (write_scripts_blocked clock c w Hb) as [e ->].
  - destruct (write_scripts_free clock c w Hb) as (es & Hes & ->).
    unfold blocked_same. rewrite Hb. unfold dashboard_blocked. simpl.
    by rewrite lookup_insert_eq.
Qed.
End Blocked.

Global Hint Resolve now_blocked_same logger_blocked_same
  read_text_blocked_same stat_mtime_blocked_same write_vault_blocked_same
  rename_blocked_same write_scripts_blocked_same : pres.

Section Blocked_ops.

Import Orchestrator Ghost.

Variable clock : nat → datetime.

Lemma _log_action_blocked_same a t :
  preserves blocked_same (_log_action clock a t).
Proof. unfold _log_action. pres. Qed.

Lemma _is_today_blocked_same d n : preserves blocked_same (_is_today clock d n).
Proof. unfold _is_today. pres. Qed.

Local Hint Resolve _log_action_blocked_same _is_today_blocked_same : pres.

Lemma filter_today_blocked_same d fs :
  preserves blocked_same (filter_today clock d fs).
Proof. induction fs as [|f fs IH]; simpl; pres. Qed.

Local Hint Resolve filter_today_blocked_same : pres.

Lemma update_dashboard_blocked_same :
  preserves blocked_same (update_dashboard clock).
Proof. unfold update_dashboard. pres. Qed.

Lemma _create_plan_template_blocked_same n :
  preserves blocked_same (_create_plan_template clock n).
Proof. unfold _create_plan_template. pres. Qed.

Local Hint Resolve update_dashboard_blocked_same
  _create_plan_template_blocked_same : pres.

Lemma _process_single_file_blocked_same f :
  preserves blocked_same (_process_single_file clock f).
Proof. unfold _process_single_file. pres. Qed.

Lemma _execute_approved_action_blocked_same f :
  preserves blocked_same (_execute_approved_action clock f).
Proof. unfold _execute_approved_action. pres. Qed.

Local Hint Resolve _process_single_file_blocked_same
  _execute_approved_action_blocked_same : pres.

Lemma intake_loop_blocked_same fs p :
  preserves blocked_same (intake_loop clock fs p).
Proof. revert p. induction fs as [|f fs IH]; intros p; simpl; pres. Qed.

Lemma approved_loop_blocked_same fs p :
  preserves blocked_same (approved_loop clock fs p).
Proof. revert p. induction fs as [|f fs IH]; intros p; simpl; pres. Qed.

Local Hint Resolve intake_loop_blocked_same approved_loop_blocked_same : pres.

Lemma process_needs_action_blocked_same :
  preserves blocked_same (process_needs_action clock).
Proof. unfold process_needs_action. pres. Qed.

Lemma process_approved_blocked_same :
  preserves blocked_same (process_approved clock).
Proof. unfold process_approved. pres. Qed.

(** The loops return: every exception of a file is caught. *)
Lemma approved_loop_returns fs p w :
  ∃ n, (approved_loop clock fs p w).2 = inr n ∧ (p ≤ n ≤ p + length fs)%nat.
Proof.
  revert p w. induction fs as [|f fs IH]; intros p w.
  - exists p. simpl. split; [done|lia].
  - rewrite approved_loop_step.
    destruct (_execute_approved_action clock f w) as [w1 [e|[]]].
    + destruct (IH p (emit (mk_log_record ERROR
                  (py "Error executing " ++ f ++ py ": ") (Some e)) w1))
        as (n & -> & Hn).
      exists n. split; [done|simpl; lia].
    + destruct (IH (S p) w1) as (n & -> & Hn).
      exists n. split; [done|simpl; lia].
Qed.

Lemma intake_loop_returns fs p w :
  ∃ n, (intake_loop clock fs p w).2 = inr n ∧ (p ≤ n ≤ p + length fs)%nat.
Proof.
  revert p w. induction fs as [|f fs IH]; intros p w.
  - exists p. simpl. split; [done|lia].
  - rewrite intake_loop_step.
    destruct (_process_single_file clock f w) as [w1 r].
    destruct (IH (if is_raise r then p else S p) (after_error f r w1))
      as (n & -> & Hn).
    exists n. split; [done|]. destruct r; simpl in *; lia.
Qed.

Lemma passes_return w :
  (∃ n, (process_approved clock w).2 = inr n
        ∧ (n ≤ length (glob_md Approved w))%nat)
  ∧ (∃ n, (process_needs_action clock w).2 = inr n
          ∧ (n ≤ length (glob_md Needs_Action w))%nat).
Proof.
  split.
  - unfold process_approved. rewrite bind_gets.
    destruct (glob_md Approved w) as [|f fs]; [by exists 0%nat|].
    erewrite bind_inr by reflexivity.
    destruct (approved_loop_returns (f :: fs) 0
                (emit (mk_log_record INFO
                   (py "Found " ++ str_of_nat (length (f :: fs))
                    ++ py " approved file(s) to execute") None) w))
      as (n & Hn & Hle).
    exists n. split; [exact Hn|lia].
  - unfold process_needs_action. rewrite bind_gets.
    destruct (glob_md Needs_Action w) as [|f fs]; [by exists 0%nat|].
    erewrite bind_inr by reflexivity. set (w1 := emit _ w).
    destruct (intake_loop_returns (f :: fs) 0 w1) as (n & Hn & Hle).
    destruct (intake_loop clock (f :: fs) 0 w1) as [w2 r] eqn:El.
    simpl in Hn. subst r. erewrite bind_inr by exact El.
    exists n. split; [done|lia].
Qed.

(** X9. [process_approved] and [process_needs_action] never raise: what a
    file raises is caught, and the count returned is at most the number of
    files listed. *)
Theorem passes_never_raise w :
  (∃ n, (process_approved clock w).2 = inr n
        ∧ (n ≤ length (glob_md Approved w))%nat)
  ∧ (∃ n, (process_needs_action clock w).2 = inr n
          ∧ (n ≤ length (glob_md Needs_Action w))%nat).
Proof. apply passes_return. Qed.

Lemma run_once_raise_blocked w :
  is_raise (run_once clock w).2 = dashboard_blocked w.
Proof.
  rewrite run_once_unfold. unfold cycle. set (w0 := emit cycle_start w).
  destruct (passes_return w0) as [(n & Hn & _) _].
  pose proof (process_approved_blocked_same w0) as Hb1.
  destruct (process_approved clock w0) as [w1 r1] eqn:E1. simpl in *.
  subst r1. erewrite bind_inr by exact E1.
  destruct (passes_return w1) as [_ (m & Hm & _)].
  pose proof (process_needs_action_blocked_same w1) as Hb2.
  destruct (process_needs_action clock w1) as [w2 r2] eqn:E2. simpl in *.
  subst r2. erewrite bind_inr by exact E2.
  pose proof (update_dashboard_raise_blocked clock w2) as Hu.
  unfold blocked_same in *.
  rewrite Hb2, Hb1 in Hu. change (dashboard_blocked w0) with (dashboard_blocked w) in Hu.
  by destruct (update_dashboard clock w2) as [w3 [e|[]]].
Qed.

End Blocked_ops.

Section Uncounted.

Import Orchestrator Ghost.

Variable clock : nat → datetime.

Lemma _execute_approved_action_blocked f w :
  dashboard_blocked w = true →
  is_raise (_execute_approved_action clock f w).2 = true.
Proof.
  intros Hb. unfold _execute_approved_action.
  erewrite bind_inr by reflexivity. set (w1 := emit _ w).
  pose proof (read_text_same Approved f w1) as Hr.
  destruct (read_text Approved f w1) as [w2 [e|b]] eqn:Er; simpl in Hr;
    subst w2; [by erewrite bind_inl by done|].
  erewrite bind_inr by done.
  pose proof (_log_action_blocked_same clock (py "execute_approved") f w1) as H2.
  destruct (_log_action clock (py "execute_approved") f w1) as [w3 [e|[]]]
    eqn:El; simpl in H2; [by erewrite bind_inl by done|].
  erewrite bind_inr by done.
  pose proof (rename_blocked_same f w3) as H3.
  destruct (rename Approved f Done f w3) as [w4 [e|[]]] eqn:En; simpl in H3;
    [by erewrite bind_inl by done|].
  erewrite bind_inr by done. erewrite bind_inr by reflexivity.
  rewrite update_dashboard_raise_blocked. unfold blocked_same in *.
  change (dashboard_blocked (emit ?r w4)) with (dashboard_blocked w4).
  rewrite H3, H2. exact Hb.
Qed.

Lemma _process_single_file_blocked f w :
  dashboard_blocked w = true →
  is_raise (_process_single_file clock f w).2 = true.
Proof.
  intros Hb. unfold _process_single_file.
  erewrite bind_inr by reflexivity. set (w1 := emit _ w).
  pose proof (read_text_same Needs_Action f w1) as Hr.
  destruct (read_text Needs_Action f w1) as [w2 [e|b]] eqn:Er; simpl in Hr;
    subst w2; [by erewrite bind_inl by done|].
  erewrite bind_inr by done.
  pose proof (_log_action_blocked_same clock (py "process_file") f w1) as H2.
  destruct (_log_action clock (py "process_file") f w1) as [w3 [e|[]]]
    eqn:El; simpl in H2; [by erewrite bind_inl by done|].
  erewrite bind_inr by done. cbv zeta.
  unfold _create_plan_template. erewrite bind_inr by reflexivity.
  set (w4 := tick w3). set (pd := mk_plan_doc _ _ _).
  pose proof (write_vault_blocked_same clock false Plans (plan_name f)
                (Plan pd) w4) as H5.
  destruct (write_vault clock false Plans (plan_name f) (Plan pd) w4)
    as [w5 [e|[]]] eqn:Ew; simpl in H5; [by erewrite bind_inl by done|].
  erewrite bind_inr by done. erewrite bind_inr by reflexivity.
  rewrite update_dashboard_raise_blocked. unfold blocked_same in *.
  change (dashboard_blocked (emit ?r w5)) with (dashboard_blocked w5).
  rewrite H5. change (dashboard_blocked w4) with (dashboard_blocked w3).
  rewrite H2. exact Hb.
Qed.

Lemma approved_loop_blocked fs p w :
  dashboard_blocked w = true → (approved_loop clock fs p w).2 = inr p.
Proof.
  revert w. induction fs as [|f fs IH]; intros w Hb; [done|].
  rewrite approved_loop_step.
  pose proof (_execute_approved_action_blocked f w Hb) as Hr.
  pose proof (_execute_approved_action_blocked_same clock f w) as Hs.
  destruct (_execute_approved_action clock f w) as [w1 [e|[]]]; [|done].
  apply IH. unfold blocked_same in Hs. simpl in Hs.
  change (dashboard_blocked (emit ?r w1)) with (dashboard_blocked w1).
  by rewrite Hs.
Qed.

Lemma intake_loop_blocked fs p w :
  dashboard_blocked w = true → (intake_loop clock fs p w).2 = inr p.
Proof.
  revert w. induction fs as [|f fs IH]; intros w Hb; [done|].
  rewrite intake_loop_step.
  pose proof (_process_single_file_blocked f w Hb) as Hr.
  pose proof (_process_single_file_blocked_same clock f w) as Hs.
  destruct (_process_single_file clock f w) as [w1 [e|[]]]; [|done].
  simpl. apply IH. unfold blocked_same in Hs. simpl in Hs.
  change (dashboard_blocked (emit ?r w1)) with (dashboard_blocked w1).
  by rewrite Hs.
Qed.

(** X11. While [Dashboard.md] cannot be written, both passes return 0
    whatever they did to the files: each file's processing ends in the
    regeneration of the dashboard, which raises, and the file is not
    counted. *)
Theorem blocked_passes_count_nothing w :
  dashboard_blocked w = true →
  (process_approved clock w).2 = inr 0%nat
  ∧ (process_needs_action clock w).2 = inr 0%nat.
Proof.
  intros Hb. split.
  - unfold process_approved. rewrite bind_gets.
    destruct (glob_md Approved w) as [|f fs]; [done|].
    erewrite bind_inr by reflexivity. by apply approved_loop_blocked.
  - unfold process_needs_action. rewrite bind_gets.
    destruct (glob_md Needs_Action w) as [|f fs]; [done|].
    erewrite bind_inr by reflexivity. set (w1 := emit _ w).
    pose proof (intake_loop_blocked (f :: fs) 0 w1 Hb) as Hl.
    destruct (intake_loop clock (f :: fs) 0 w1) as [w2 r] eqn:El.
    simpl in Hl. subst r. by erewrite bind_inr by exact El.
Qed.
End Uncounted.

Lemma blocked_passes_count_nothing_witness :
  dashboard_blocked More_examples.approved_no_scripts = true
  ∧ (Orchestrator.process_approved Examples.clock0
       More_examples.approved_no_scripts).2 = inr 0%nat.
Proof.
  split; [reflexivity|].
  exact (proj1 (blocked_passes_count_nothing Examples.clock0
                  More_examples.approved_no_scripts eq_refl)).
Defined.

(** * Files that can be processed are processed *)

Section Progress.

Import Orchestrator Ghost.

Variable clock : nat → datetime.

Lemma _log_action_ok a t w :
  logs_writable w → ∃ w', _log_action clock a t w = (w', inr tt).
Proof.
  intros (ls & HL & Hk). unfold _log_action, now.
  erewrite bind_inr by reflexivity. erewrite bind_inr by reflexivity.
  cbv zeta.
  destruct (body_of (ls !! (strftime_Ymd (clock (ticks (tick w))) ++ py ".jsonl")))
    as [b|] eqn:Hb; [|by apply Hk in Hb].
  eexists. by apply (write_vault_ok clock true Logs _ _ _ ls b).
Qed.

Lemma logs_writable_kept w w' :
  log_grows w w' → same_dirs_exist w w' → logs_writable w → logs_writable w'.
Proof.
  intros Hg Hd (ls & HL & Hk).
  destruct (proj2 (Hd Logs)) as [ls' HL']; [by rewrite HL|].
  exists ls'. split; [done|]. intros key.
  assert (file_at Logs key w' = ls' !! key) as <-
    by (unfold file_at; by rewrite HL').
  destruct (Hg key) as [->|(old & es & t & _ & -> & _)]; [|done].
  unfold file_at. rewrite HL. apply Hk.
Qed.

Lemma rename_ok n b t w :
  file_at Approved n w = Some (mk_entry (Regular b) t) →
  is_Some (vault w !! Done) →
  (∀ em tm, file_at Done n w ≠ Some (mk_entry (Directory em) tm)) →
  rename Approved n Done n w
  = (set_vault (move_entry Approved n Done n (mk_entry (Regular b) t)) w,
     inr tt).
Proof.
  intros Hf [ds Hd] Hn. unfold rename. fold (file_at Approved n w).
  rewrite Hf, Hd. rewrite bool_decide_eq_false_2 by (intros [? _]; done).
  unfold file_at in Hn. rewrite Hd in Hn. simpl in Hn.
  destruct (ds !! n) as [[[b'|em] t']|] eqn:He; simpl; try done.
  by destruct (Hn em t').
Qed.

Lemma _execute_approved_action_moves n b t w :
  ready_to_move n b t w →
  let w' := (_execute_approved_action clock n w).1 in
  file_at Approved n w' = None
  ∧ file_at Done n w' = Some (mk_entry (Regular b) t).
Proof.
  intros (HL & HD & Hf & Hn). cbv zeta. unfold _execute_approved_action.
  erewrite bind_inr by reflexivity. set (w1 := emit _ w).
  erewrite (bind_inr (read_text Approved n)); cycle 1.
  { unfold read_text. fold (file_at Approved n w1).
    change (file_at Approved n w1) with (file_at Approved n w).
    by rewrite Hf. }
  destruct (_log_action_ok (py "execute_approved") n w1 HL) as [w3 Hl].
  pose proof (_log_action_same_at clock n (py "execute_approved") n w1)
    as [HA3 HD3].
  pose proof (_log_action_same_dirs_exist clock (py "execute_approved") n w1)
    as He3.
  rewrite Hl in HA3, HD3, He3. simpl in HA3, HD3, He3.
  erewrite bind_inr by exact Hl.
  erewrite bind_inr; cycle 1.
  { apply (rename_ok n b t w3).
    - by rewrite HA3.
    - by apply He3.
    - intros em tm. rewrite HD3. apply Hn. }
  set (w4 := set_vault _ w3).
  assert (only_dashboard w4
            ((logger INFO (py "Moved to Done: " ++ n) None;;
              update_dashboard clock)%M w4).1) as H5.
  { refine ((_ : preserves only_dashboard _) w4). pres. }
  rewrite !(only_dashboard_file_at _ _ _ _ H5). unfold w4.
  rewrite !(file_at_rename Approved n Done n _ w3)
    by (done || compute_done || by rewrite HA3 || by apply He3).
  rewrite bool_decide_eq_true_2 by done.
  rewrite bool_decide_eq_false_2 by (intros [? _]; done).
  by rewrite bool_decide_eq_true_2.
Qed.

Lemma _execute_approved_action_keeps_ready n b t m w :
  n ≠ m → ready_to_move n b t w →
  ready_to_move n b t (_execute_approved_action clock m w).1.
Proof.
  intros Hne (HL & HD & Hf & Hn).
  destruct (_execute_approved_action_frame clock m w)
    as (_ & He & _ & _ & Hg).
  destruct (_execute_approved_action_same_at clock n m Hne w) as [HA HDn].
  split; [by eapply logs_writable_kept|]. split; [by apply He|].
  split; [by rewrite HA|]. intros em tm. rewrite HDn. apply Hn.
Qed.

Lemma approved_loop_moves n b t fs p w :
  NoDup fs → n ∈ fs → ready_to_move n b t w →
  let w' := (approved_loop clock fs p w).1 in
  file_at Approved n w' = None
  ∧ file_at Done n w' = Some (mk_entry (Regular b) t).
Proof.
  revert p w. induction fs as [|f fs IH]; intros p w Hnd Hin Hr; cbv zeta.
  { by apply elem_of_nil in Hin. }
  apply NoDup_cons in Hnd as [Hf Hnd].
  rewrite approved_loop_step.
  destruct (decide (n = f)) as [<-|Hne].
  - pose proof (_execute_approved_action_moves n b t w Hr) as [HA HD].
    destruct (_execute_approved_action clock n w) as [w1 [e|[]]];
      simpl in HA, HD.
    + set (w2 := emit _ w1).
      destruct (approved_loop_same_at clock n fs p Hf w2) as [HA' HD'].
      by rewrite HA', HD'.
    + destruct (approved_loop_same_at clock n fs (S p) Hf w1) as [HA' HD'].
      by rewrite HA', HD'.
  - assert (n ∈ fs) as Hin' by set_solver.
    pose proof (_execute_approved_action_keeps_ready n b t f w Hne Hr) as Hr'.
    destruct (_execute_approved_action clock f w) as [w1 [e|[]]];
      simpl in Hr'.
    + by apply IH.
    + by apply IH.
Qed.

Lemma glob_md_elem_of d w f :
  f ∈ glob_md d w ↔ endswith dot_md f = true ∧ is_Some (file_at d f w).
Proof.
  unfold glob_md, file_at. destruct (vault w !! d) as [es|]; simpl.
  - rewrite list_elem_of_filter. unfold scandir.
    rewrite list_elem_of_fmap. split.
    + intros [H1 ([k e] & -> & H)]. split; [by apply Is_true_true|].
      apply elem_of_map_to_list in H. by exists e.
    + intros [H1 [e He]]. split; [by apply Is_true_true|].
      exists (f, e). split; [done|]. by apply elem_of_map_to_list.
  - split; [by intros ?%elem_of_nil|]. by intros [_ [? ?]].
Qed.

End Progress.


Section Planning.

Import Orchestrator Ghost.

Variable clock : nat → datetime.

Lemma _log_action_ticks a t w w' :
  _log_action clock a t w = (w', inr tt) → ticks w' = (ticks w + 3)%nat.
Proof.
  unfold _log_action, now.
  erewrite bind_inr by reflexivity. erewrite bind_inr by reflexivity.
  cbv zeta. intros H.
  destruct (write_vault_inv clock true Logs
              (strftime_Ymd (clock (ticks (tick w))) ++ py ".jsonl")
              (JsonLine (mk_log_entry (isoformat (clock (ticks w))) a
                           (py "orchestrator") t (py "success")))
              (tick (tick w))) as [[_ Hx]|(es & b & _ & _ & Hw)].
  - rewrite H in Hx. done.
  - rewrite H in Hw. injection Hw as ->. simpl. lia.
Qed.

Lemma _process_single_file_plan n w :
  ready_to_plan n w →
  file_at Plans (plan_name n) (_process_single_file clock n w).1
  = Some (mk_entry
            (Regular [Plan (mk_plan_doc (isoformat (clock (ticks w + 3))) n
                                        (stem n))])
            (clock (ticks w + 4))).
Proof.
  intros (HL & (b & t & Hf) & HP & Hn). unfold _process_single_file.
  erewrite bind_inr by reflexivity. set (w1 := emit _ w).
  erewrite (bind_inr (read_text Needs_Action n)); cycle 1.
  { unfold read_text. fold (file_at Needs_Action n w1).
    change (file_at Needs_Action n w1) with (file_at Needs_Action n w).
    by rewrite Hf. }
  destruct (_log_action_ok clock (py "process_file") n w1 HL) as [w3 Hl].
  pose proof (_log_action_ticks _ _ _ _ Hl) as Ht.
  pose proof (_log_action_same_dirs_exist clock (py "process_file") n w1)
    as He3.
  pose proof (_log_action_plans_frame clock [] (py "process_file") n w1
                (plan_name n)) as Hp3.
  rewrite Hl in He3, Hp3. simpl in He3, Hp3.
  destruct Hp3 as [Hp3|[_ (f & Hf' & _)]]; [|by apply elem_of_nil in Hf'].
  erewrite bind_inr by exact Hl. cbv zeta.
  erewrite (bind_inr (_create_plan_template clock n)) by reflexivity.
  destruct (proj2 (He3 Plans) HP) as [ps Hps].
  assert (∃ b0, body_of (ps !! plan_name n) = Some b0) as [b0 Hb0].
  { assert (file_at Plans (plan_name n) w3 = ps !! plan_name n) as <-
      by (unfold file_at; by rewrite Hps).
    rewrite Hp3. change (file_at Plans (plan_name n) w1)
      with (file_at Plans (plan_name n) w).
    destruct (file_at Plans (plan_name n) w) as [[[b'|em] t']|] eqn:E;
      simpl; eauto. by destruct (Hn em t'). }
  erewrite bind_inr; cycle 1.
  { by apply (write_vault_ok clock false Plans _ _ _ ps b0). }
  set (w5 := tick (set_vault _ _)).
  assert (only_dashboard w5
            ((logger INFO (py "Created plan: " ++ plan_name n) None;;
              update_dashboard clock)%M w5).1) as H5.
  { refine ((_ : preserves only_dashboard _) w5). pres. }
  rewrite (only_dashboard_file_at _ _ _ _ H5). unfold w5.
  rewrite (file_at_write Plans (plan_name n) _ ps (tick w3) _ _ Hps).
  rewrite bool_decide_eq_true_2 by done.
  simpl. rewrite Ht. simpl.
  replace (S (ticks w + 3)) with (ticks w + 4)%nat by lia. done.
Qed.


Lemma _process_single_file_keeps_ready n m w :
  ready_to_plan n w → ready_to_plan n (_process_single_file clock m w).1.
Proof.
  intros (HL & (b & t & Hf) & HP & Hn).
  destruct (_process_single_file_frame clock [m] m ltac:(set_solver) w)
    as (Hd & He & _ & _ & Hp & Hg).
  split; [by eapply logs_writable_kept|]. split; [|split].
  - exists b, t. unfold file_at. rewrite Hd; [done|].
    destruct names_distinct as (_ & _ & _ & _ & _ & _ & ? & ? & _).
    set_solver.
  - by apply He.
  - intros em tm. destruct (Hp (plan_name n)) as [->|[(pd & t' & ->) _]];
      [apply Hn|done].
Qed.

Lemma intake_loop_plans_kept fs p : preserves plans_kept (intake_loop clock fs p).
Proof.
  intros w.
  by destruct (intake_loop_frame clock fs fs p (reflexivity _) w)
    as (_ & _ & _ & Hk & _).
Qed.

Lemma intake_loop_plans n fs p w :
  n ∈ fs → ready_to_plan n w →
  has_plan (plan_name n) (intake_loop clock fs p w).1.
Proof.
  revert p w. induction fs as [|f fs IH]; intros p w Hin Hr.
  { by apply elem_of_nil in Hin. }
  rewrite intake_loop_step.
  destruct (decide (n = f)) as [<-|Hne].
  - pose proof (_process_single_file_plan n w Hr) as Hp.
    destruct (_process_single_file clock n w) as [w1 r]. simpl in Hp.
    apply intake_loop_plans_kept. unfold has_plan.
    replace (file_at Plans (plan_name n) (after_error n r w1))
      with (file_at Plans (plan_name n) w1) by (by destruct r).
    rewrite Hp. by eexists _, _.
  - assert (n ∈ fs) as Hin' by set_solver.
    pose proof (_process_single_file_keeps_ready n f w Hr) as Hr'.
    destruct (_process_single_file clock f w) as [w1 r]. simpl in Hr'.
    apply IH; [done|]. by destruct r.
Qed.

End Planning.



(** * When the log cannot be written *)

Section No_logs.

Import Orchestrator Ghost.

Variable clock : nat → datetime.

Lemma _log_action_no_logs a t w :
  vault w !! Logs = None →
  _log_action clock a t w = (tick (tick w), inl FileNotFoundError).
Proof.
  intros H. unfold _log_action, now.
  erewrite bind_inr by reflexivity. erewrite bind_inr by reflexivity.
  cbv zeta. unfold write_vault. simpl. by rewrite H.
Qed.

Lemma _execute_approved_action_no_logs f w :
  vault w !! Logs = None →
  is_raise (_execute_approved_action clock f w).2 = true
  ∧ files_of (_execute_approved_action clock f w).1 = files_of w.
Proof.
  intros H. unfold _execute_approved_action.
  erewrite bind_inr by reflexivity. set (w1 := emit _ w).
  pose proof (read_text_same Approved f w1) as Hr.
  destruct (read_text Approved f w1) as [w2 [e|b]] eqn:Er; simpl in Hr;
    subst w2; [by erewrite bind_inl by done|].
  erewrite bind_inr by done.
  by erewrite bind_inl by (by apply _log_action_no_logs).
Qed.

Lemma _process_single_file_no_logs f w :
  vault w !! Logs = None →
  is_raise (_process_single_file clock f w).2 = true
  ∧ files_of (_process_single_file clock f w).1 = files_of w.
Proof.
  intros H. unfold _process_single_file.
  erewrite bind_inr by reflexivity. set (w1 := emit _ w).
  pose proof (read_text_same Needs_Action f w1) as Hr.
  destruct (read_text Needs_Action f w1) as [w2 [e|b]] eqn:Er; simpl in Hr;
    subst w2; [by erewrite bind_inl by done|].
  erewrite bind_inr by done.
  by erewrite bind_inl by (by apply _log_action_no_logs).
Qed.

Lemma approved_loop_no_logs fs p w :
  vault w !! Logs = None →
  (approved_loop clock fs p w).2 = inr p
  ∧ files_of (approved_loop clock fs p w).1 = files_of w.
Proof.
  revert w. induction fs as [|f fs IH]; intros w H; [done|].
  rewrite approved_loop_step.
  destruct (_execute_approved_action_no_logs f w H) as [Hr Hf].
  destruct (_execute_approved_action clock f w) as [w1 [e|[]]]; [|done].
  simpl in Hf. injection Hf as Hv Hs.
  destruct (IH (emit (mk_log_record ERROR
              (py "Error executing " ++ f ++ py ": ") (Some e)) w1))
    as [-> ->]; [simpl; by rewrite Hv|].
  split; [done|]. unfold files_of. simpl. by rewrite Hv, Hs.
Qed.

Lemma intake_loop_no_logs fs p w :
  vault w !! Logs = None →
  (intake_loop clock fs p w).2 = inr p
  ∧ files_of (intake_loop clock fs p w).1 = files_of w.
Proof.
  revert w. induction fs as [|f fs IH]; intros w H; [done|].
  rewrite intake_loop_step.
  destruct (_process_single_file_no_logs f w H) as [Hr Hf].
  destruct (_process_single_file clock f w) as [w1 [e|[]]]; [|done].
  simpl in Hf. injection Hf as Hv Hs.
  cbv beta iota zeta delta [is_raise after_error].
  destruct (IH (emit (mk_log_record ERROR
              (py "Error processing " ++ f ++ py ": ") (Some e)) w1))
    as [-> ->]; [simpl; by rewrite Hv|].
  split; [done|]. unfold files_of. simpl. by rewrite Hv, Hs.
Qed.

(** X15. Without a [Logs] directory neither pass does anything to the
    files: the log entry is written before the plan and before the rename,
    so every file raises there, both passes return 0, and the vault and the
    scripts directory are as they were. *)
Theorem no_logs_nothing_done w :
  vault w !! Logs = None →
  (process_approved clock w).2 = inr 0%nat
  ∧ files_of (process_approved clock w).1 = files_of w
  ∧ (process_needs_action clock w).2 = inr 0%nat
  ∧ files_of (process_needs_action clock w).1 = files_of w.
Proof.
  intros H. split; [|split; [|split]].
  - unfold process_approved. rewrite bind_gets.
    destruct (glob_md Approved w) as [|f fs]; [done|].
    erewrite bind_inr by reflexivity. by apply approved_loop_no_logs.
  - unfold process_approved. rewrite bind_gets.
    destruct (glob_md Approved w) as [|f fs]; [done|].
    erewrite bind_inr by reflexivity.
    by destruct (approved_loop_no_logs (f :: fs) 0 (emit (mk_log_record INFO
          (py "Found " ++ str_of_nat (length (f :: fs))
           ++ py " approved file(s) to execute") None) w) H) as [_ ->].
  - unfold process_needs_action. rewrite bind_gets.
    destruct (glob_md Needs_Action w) as [|f fs]; [done|].
    erewrite bind_inr by reflexivity. set (w1 := emit _ w).
    destruct (intake_loop_no_logs (f :: fs) 0 w1 H) as [Hl _].
    destruct (intake_loop clock (f :: fs) 0 w1) as [w2 r] eqn:El.
    simpl in Hl. subst r. by erewrite bind_inr by exact El.
  - unfold process_needs_action. rewrite bind_gets.
    destruct (glob_md Needs_Action w) as [|f fs]; [done|].
    erewrite bind_inr by reflexivity. set (w1 := emit _ w).
    destruct (intake_loop_no_logs (f :: fs) 0 w1 H) as [Hl Hf].
    destruct (intake_loop clock (f :: fs) 0 w1) as [w2 r] eqn:El.
    simpl in Hl, Hf. subst r. by erewrite bind_inr by exact El.
Qed.
End No_logs.

Lemma no_logs_nothing_done_witness :
  vault More_examples.no_logs !! Logs = None
  ∧ (Orchestrator.process_approved Examples.clock0 More_examples.no_logs).2
    = inr 0%nat
  ∧ (Orchestrator.process_needs_action Examples.clock0
       More_examples.no_logs).2 = inr 0%nat.
Proof.
  split; [reflexivity|].
  destruct (no_logs_nothing_done Examples.clock0 More_examples.no_logs
              eq_refl) as (H1 & _ & H2 & _).
  split; [exact H1|exact H2].
Defined.

(** * What the count of [process_approved] counts *)

Section Count.

Import Orchestrator Ghost.

Variable clock : nat → datetime.

Lemma _execute_approved_action_counted f e w :
  dashboard_blocked w = false → file_at Approved f w = Some e →
  (is_raise (_execute_approved_action clock f w).2 = true
   ∧ same_at f w (_execute_approved_action clock f w).1)
  ∨ ((_execute_approved_action clock f w).2 = inr tt
     ∧ file_at Approved f (_execute_approved_action clock f w).1 = None).
Proof.
  intros Hb He. unfold _execute_approved_action.
  erewrite bind_inr by reflexivity. set (w1 := emit _ w).
  assert (same_at f w w1) as H1 by done.
  pose proof (read_text_same Approved f w1) as Hr.
  destruct (read_text Approved f w1) as [w2 [ex|b]] eqn:Er; simpl in Hr;
    subst w2.
  { erewrite bind_inl by done. by left. }
  erewrite bind_inr by done.
  pose proof (_log_action_same_at clock f (py "execute_approved") f w1) as H2.
  pose proof (_log_action_blocked_same clock (py "execute_approved") f w1)
    as B2.
  destruct (_log_action clock (py "execute_approved") f w1) as [w3 [ex|[]]]
    eqn:El; simpl in H2, B2.
  { erewrite bind_inl by done. left. split; [done|by etrans]. }
  erewrite bind_inr by done.
  assert (same_at f w w3) as H3 by (by etrans).
  destruct (rename_inv Approved f Done f w3)
    as [[Hw Hx]|(src & Hs & Hd & Hren)]; [compute_done| |].
  - destruct (rename Approved f Done f w3) as [w4 [ex|[]]] eqn:En; simpl in *;
      [|done]. subst w4. erewrite bind_inl by done. by left.
  - erewrite bind_inr by done. right.
    set (w4 := set_vault (move_entry Approved f Done f src) w3).
    erewrite bind_inr by reflexivity. set (w5 := emit _ w4).
    assert (dashboard_blocked w5 = false) as B5.
    { unfold blocked_same in B2. change (dashboard_blocked w5)
        with (dashboard_blocked w3). by rewrite B2. }
    pose proof (update_dashboard_raise_blocked clock w5) as Hu.
    rewrite B5 in Hu.
    pose proof (update_dashboard_only_dashboard clock w5) as H5.
    destruct (update_dashboard clock w5) as [w6 [ex|[]]]; [done|].
    split; [done|]. simpl in *.
    rewrite (only_dashboard_file_at _ _ _ _ H5).
    change (file_at Approved f w5) with (file_at Approved f w4). unfold w4.
    rewrite (file_at_rename Approved f Done f src w3) by (done || compute_done).
    by rewrite bool_decide_eq_true_2.
Qed.

Lemma gone_same_at f w w' : same_at f w w' → gone w' f = gone w f.
Proof. intros [H _]. unfold gone. by rewrite H. Qed.

Lemma approved_loop_count fs p w :
  NoDup fs → dashboard_blocked w = false →
  (∀ f, f ∈ fs → is_Some (file_at Approved f w)) →
  (approved_loop clock fs p w).2
  = inr (p + length (filter (fun f => gone (approved_loop clock fs p w).1 f)
                            fs))%nat.
Proof.
  revert p w. induction fs as [|f fs IH]; intros p w Hnd Hb Hex.
  { simpl. f_equal. lia. }
  apply NoDup_cons in Hnd as [Hf Hnd].
  destruct (Hex f) as [e He]; [set_solver|].
  rewrite approved_loop_step.
  pose proof (_execute_approved_action_counted f e w Hb He) as Hc.
  pose proof (_execute_approved_action_blocked_same clock f w) as Hbs.
  assert (∀ g, g ∈ fs →
            is_Some (file_at Approved g (_execute_approved_action clock f w).1))
    as Hex'.
  { intros g Hg.
    destruct (_execute_approved_action_same_at clock g f) with (w := w)
      as [-> _]; [set_solver|]. apply Hex. set_solver. }
  destruct (_execute_approved_action clock f w) as [w1 r]. simpl in *.
  unfold blocked_same in Hbs. rewrite Hb in Hbs.
  destruct Hc as [[Hr Hs]|[-> Hg]].
  - destruct r as [ex|]; [|done].
    set (w2 := emit _ w1).
    rewrite (IH p w2 Hnd Hbs Hex'). f_equal.
    pose proof (approved_loop_same_at clock f fs p Hf w2) as Hs2.
    rewrite filter_cons_False; [done|].
    rewrite (gone_same_at f w2 _ Hs2).
    change (gone w2 f) with (gone w1 f). rewrite (gone_same_at f w w1 Hs).
    unfold gone. rewrite He. by intros [].
  - rewrite (IH (S p) w1 Hnd Hbs Hex'). f_equal.
    pose proof (approved_loop_same_at clock f fs (S p) Hf w1) as Hs2.
    rewrite filter_cons_True.
    + simpl. lia.
    + rewrite (gone_same_at f w1 _ Hs2). unfold gone. by rewrite Hg.
Qed.

Lemma gone_is_Some w f : ¬ gone w f ↔ is_Some (file_at Approved f w).
Proof.
  unfold gone. destruct (file_at Approved f w); simpl.
  - split; [by eexists|by intros _ []].
  - split; [by intros []|by intros [? ?]].
Qed.

End Count.


(** * Lines of text *)

Section Lines.

Implicit Types (s x cur : str) (l : list str) (c : N).

Lemma splitlines_from_one_line cur x s :
  one_line x → splitlines_from cur (x ++ s) = splitlines_from (cur ++ x) s.
Proof.
  intros H. revert cur. induction H as [|c x Hc Hx IH]; intros cur; simpl.
  - by rewrite app_nil_r.
  - rewrite Hc, IH. by rewrite <- app_assoc.
Qed.

Lemma splitlines_from_lf cur s :
  splitlines_from cur (10 :: s) = cur :: splitlines_from [] s.
Proof. reflexivity. Qed.

Lemma splitlines_join l :
  Forall (fun x => x ≠ [] ∧ one_line x) l → splitlines (join_lines l) = l.
Proof.
  unfold splitlines. induction 1 as [|x l [Hne Hx] Hl IH]; [done|].
  destruct l as [|y l].
  - simpl. rewrite <- (app_nil_r x) at 1.
    rewrite splitlines_from_one_line by done. simpl. by destruct x.
  - change (join_lines (x :: y :: l)) with (x ++ 10 :: join_lines (y :: l)).
    rewrite splitlines_from_one_line by done.
    by rewrite splitlines_from_lf, IH.
Qed.

Lemma universal_newlines_id s : 13 ∉ s → universal_newlines s = s.
Proof.
  induction s as [|c s IH]; [done|]. intros H.
  assert (c ≠ 13) by set_solver.
  assert (universal_newlines (c :: s) = c :: universal_newlines s) as ->.
  { destruct c as [|p]; [done|]. do 4 (destruct p as [p|p|]; try done). }
  rewrite IH; [done|set_solver].
Qed.

Lemma one_line_no_cr x : one_line x → 13 ∉ x.
Proof.
  unfold one_line. intros H Hin. rewrite Forall_forall in H.
  by apply H in Hin.
Qed.

Lemma join_lines_no_cr l : Forall one_line l → 13 ∉ join_lines l.
Proof.
  induction 1 as [|x l Hx Hl IH]; [set_solver|].
  destruct l as [|y l]; [by apply one_line_no_cr|].
  change (join_lines (x :: y :: l)) with (x ++ 10 :: join_lines (y :: l)).
  apply one_line_no_cr in Hx. set_solver.
Qed.

Lemma splitlines_from_lines_aux n line :
  ∀ s cur, (length s ≤ n)%nat → one_line cur →
    line ∈ splitlines_from cur s → one_line line.
Proof.
  induction n as [|n IH]; intros s cur Hlen Hcur.
  { destruct s; [|simpl in Hlen; lia]. simpl.
    destruct cur; [by intros ?%elem_of_nil|].
    by intros ->%list_elem_of_singleton. }
  destruct s as [|c s]; simpl.
  { destruct cur; [by intros ?%elem_of_nil|].
    by intros ->%list_elem_of_singleton. }
  simpl in Hlen.
  destruct (is_linebreak c) eqn:Hc.
  - assert (∀ t, (length t ≤ n)%nat →
              line ∈ cur :: splitlines_from [] t → one_line line) as Hstep.
    { intros t Ht [->|Hin]%elem_of_cons; [done|].
      by apply (IH t []); [|constructor|]. }
    destruct (decide (c = 13)) as [->|Hp].
    + destruct s as [|c' s']; [apply Hstep; simpl; lia|].
      destruct (decide (c' = 10)) as [->|Hc'].
      * apply Hstep. simpl in *. lia.
      * assert (match c' with 10 => cur :: splitlines_from [] s'
                | _ => cur :: splitlines_from [] (c' :: s') end
                = cur :: splitlines_from [] (c' :: s')) as ->.
        { destruct c' as [|q]; [done|].
          do 4 (destruct q as [q|q|]; try done). }
        apply Hstep. simpl in *. lia.
    + assert (match c with 13 => match s with
                 | 10 :: t' => cur :: splitlines_from [] t'
                 | _ => cur :: splitlines_from [] s end
               | _ => cur :: splitlines_from [] s end
               = cur :: splitlines_from [] s) as ->.
      { destruct c as [|p]; [done|].
        do 4 (destruct p as [p|p|]; try done). }
      apply Hstep. lia.
  - apply IH; [lia|]. apply Forall_app. split; [done|]. by constructor.
Qed.

Lemma splitlines_lines s line : line ∈ splitlines s → one_line line.
Proof.
  apply (splitlines_from_lines_aux (length s) line s []); [done|constructor].
Qed.
End Lines.

(** * The state file of a watcher *)

Section Watcher_state.

Import Orchestrator.

Variable clock : nat → datetime.

Variable rendered_text : chunk → str.

Lemma save_then_load state_file ids ids0 w ls :
  vault w !! Logs = Some ls →
  body_of (ls !! state_file) ≠ None →
  ∃ w1 w2,
    Watcher.save_processed_ids clock state_file ids w = (w1, inr tt)
    ∧ Watcher.load_processed_ids rendered_text state_file ids0 w1
      = (w2, inr (list_to_set (splitlines (universal_newlines
                                  (join_lines (elements ids))))))
    ∧ files_of w2 = files_of w1.
Proof.
  intros HL Hb. unfold Watcher.save_processed_ids.
  destruct (body_of (ls !! state_file)) as [b|] eqn:Eb; [|done].
  rewrite (write_vault_ok clock false Logs state_file _ w ls b HL Eb).
  eexists _, _. split; [done|].
  set (w1 := tick _).
  assert (file_at Logs state_file w1
          = Some (mk_entry (Regular [Raw (join_lines (elements ids))])
                           (clock (ticks w)))) as Hf.
  { unfold w1. rewrite (file_at_write Logs state_file _ ls w _ _ HL).
    by rewrite bool_decide_eq_true_2. }
  unfold Watcher.load_processed_ids. rewrite bind_gets.
  rewrite bool_decide_eq_true_2 by (rewrite Hf; by eexists).
  erewrite (bind_inr (read_text Logs state_file)); cycle 1.
  { unfold read_text. fold (file_at Logs state_file w1). by rewrite Hf. }
  cbv zeta. erewrite bind_inr by reflexivity.
  unfold Watcher.body_text. simpl. rewrite app_nil_r. done.
Qed.


(** X18. An identifier that holds a line boundary does not survive a save
    followed by a load: it is not in the set loaded, so the item it names
    is no longer known as processed. *)
Theorem processed_ids_line_break_lost state_file ids ids0 w ls x :
  vault w !! Logs = Some ls →
  body_of (ls !! state_file) ≠ None →
  x ∈ ids → ¬ one_line x →
  ∃ w1 w2 ids',
    Watcher.save_processed_ids clock state_file ids w = (w1, inr tt)
    ∧ Watcher.load_processed_ids rendered_text state_file ids0 w1
      = (w2, inr ids')
    ∧ x ∉ ids'.
Proof.
  intros HL Hb Hx Hbr.
  destruct (save_then_load state_file ids ids0 w ls HL Hb)
    as (w1 & w2 & Hs & Hl & _).
  eexists w1, w2, _. split; [done|]. split; [exact Hl|].
  intros Hin%elem_of_list_to_set. by apply splitlines_lines in Hin.
Qed.
End Watcher_state.


Lemma processed_ids_line_break_lost_witness :
  ∃ w1 w2 ids',
    Watcher.save_processed_ids Examples.clock0 (py "processed_ids.txt")
      {[ [97; 10; 98] ]} Examples.idle = (w1, inr tt)
    ∧ Watcher.load_processed_ids (fun _ => []) (py "processed_ids.txt") ∅ w1
      = (w2, inr ids')
    ∧ [97; 10; 98] ∉ ids'.
Proof.
  apply (processed_ids_line_break_lost Examples.clock0 (fun _ => [])
           (py "processed_ids.txt") {[ [97; 10; 98] ]} ∅ Examples.idle ∅).
  - reflexivity.
  - by rewrite lookup_empty.
  - by apply elem_of_singleton.
  - intros H. inversion H as [|? ? _ H']. inversion H' as [|? ? Hc _].
    discriminate Hc.
Defined.

(** * The loop and the construction of a watcher *)

Section Watcher_loop.

Import Orchestrator.

Variable item : Type.

Variable check_for_updates : M (list item).

Variable create_action_file : item → M str.

Lemma create_all_returns items w :
  (Watcher.create_all item create_action_file items w).2 = inr tt.
Proof.
  revert w. induction items as [|i items IH]; intros w; [done|].
  simpl. unfold bind at 1. unfold attempt.
  destruct (bind (create_action_file i) _ w) as [w1 [e|[]]]; simpl.
  - unfold bind at 1. simpl. apply IH.
  - unfold bind at 1. simpl. apply IH.
Qed.

Lemma iteration_returns w :
  (Watcher.iteration item check_for_updates create_action_file w).2 = inr tt.
Proof.
  unfold Watcher.iteration. unfold bind at 1. unfold attempt.
  by destruct (bind check_for_updates _ w) as [w1 [e|[]]].
Qed.

Lemma iterations_returns n w :
  (Watcher.iterations item check_for_updates create_action_file n w).2
  = inr tt.
Proof.
  revert w. induction n as [|n IH]; intros w; [done|].
  simpl. unfold bind.
  pose proof (iteration_returns w) as H.
  destruct (Watcher.iteration item check_for_updates create_action_file w)
    as [w1 r]. simpl in H. subst r. apply IH.
Qed.

(** X19. With an interval that is not negative, the loop of a watcher
    never raises, whatever its connector does: an exception of
    [create_action_file] is caught for that item, an exception of
    [check_for_updates] for that turn; and a turn whose check raises does
    nothing more than what the check did and log the error. *)
Theorem watcher_run_never_raises check_interval n w :
  (Watcher.run item check_for_updates create_action_file check_interval n
     w).2 = inr tt
  ∧ ∀ w1 e,
      check_for_updates w = (w1, inl e) →
      Watcher.iteration item check_for_updates create_action_file w
      = (emit (mk_log_record ERROR (py "Error in check loop: ") (Some e)) w1,
         inr tt).
Proof.
  split.
  - unfold Watcher.run. do 3 (erewrite bind_inr by reflexivity).
    apply iterations_returns.
  - intros w1 e H. unfold Watcher.iteration.
    erewrite (bind_inr _ _ w w1 (inl e)); [reflexivity|].
    unfold attempt. by erewrite bind_inl by exact H.
Qed.
End Watcher_loop.

Lemma watcher_run_never_raises_witness :
  raise (A := list unit) FileNotFoundError Examples.idle
  = (Examples.idle, inl FileNotFoundError)
  ∧ Watcher.iteration unit (raise FileNotFoundError) (fun _ => ret [])
      Examples.idle
    = (emit (mk_log_record ERROR (py "Error in check loop: ")
                           (Some FileNotFoundError)) Examples.idle,
       inr tt).
Proof.
  split; [reflexivity|].
  apply (proj2 (watcher_run_never_raises unit (raise FileNotFoundError)
                  (fun _ => ret []) 60 0 Examples.idle)).
  reflexivity.
Defined.

Section Watcher_init.

Import Orchestrator.

Lemma watcher_init_returns w :
  Watcher.init w = ((mkdir Needs_Action (mkdir Logs w).1).1, inr ∅).
Proof.
  unfold Watcher.init. do 2 (erewrite bind_inr by apply mkdir_ret).
  reflexivity.
Qed.

Lemma watcher_init_vault w d :
  vault (Watcher.init w).1 !! d
  = (if bool_decide (d ∈ [Logs; Needs_Action])
     then Some (default ∅ (vault w !! d))
     else vault w !! d).
Proof.
  rewrite watcher_init_returns. simpl. rewrite !mkdir_lookup.
  destruct names_distinct as (? & ? & ? & ? & ? & ? & ? & ? & ? & ?).
  repeat case_bool_decide; subst; try done; set_solver.
Qed.

End Watcher_init.

(** * Continuous mode *)

Section Continuous.

Import Orchestrator.

Variable clock : nat → datetime.

Lemma run_once_blocked_same : preserves blocked_same (run_once clock).
Proof.
  pose proof (process_approved_blocked_same clock).
  pose proof (process_needs_action_blocked_same clock).
  pose proof (update_dashboard_blocked_same clock).
  unfold run_once. pres.
Qed.

Lemma cycles_free n w :
  dashboard_blocked w = false → (Driver.cycles clock n w).2 = inr tt.
Proof.
  revert w. induction n as [|n IH]; intros w Hb; [done|].
  simpl. pose proof (run_once_raise_blocked clock w) as Hr.
  pose proof (run_once_blocked_same w) as Hs.
  rewrite Hb in Hr. unfold blocked_same in Hs. rewrite Hb in Hs.
  destruct (run_once clock w) as [w1 [e|[]]] eqn:E; [done|].
  erewrite bind_inr by exact E. by apply IH.
Qed.

End Continuous.



(** * The verification script after construction *)

Section Verify_folders.

Import Orchestrator.

Variable clock : nat → datetime.

Lemma folders_passed_iff w :
  Verify.folders_passed w = true
  ↔ ∀ d, d ∈ Verify.required_folders → is_Some (vault w !! d).
Proof.
  unfold Verify.folders_passed, Verify.required_folders, Verify.check_folder.
  simpl. rewrite <- !Forall_forall. split.
  - intros H.
    repeat (case_bool_decide; simpl in H; [|done]).
    repeat (apply Forall_cons; split; [done|]). apply Forall_nil_2.
  - intros H.
    repeat (apply Forall_cons in H as [? H]).
    rewrite !bool_decide_eq_true_2; done.
Qed.

(** X22. Right after an orchestrator has been constructed on a vault, the
    folder checks of the verification script all pass exactly when [Inbox],
    [Pending_Approval] and [Plans] existed before: the constructor supplies
    the other four required folders and none of these three. *)
Theorem verify_after_init w :
  Verify.folders_passed (init clock w).1 = true
  ↔ is_Some (vault w !! Inbox) ∧ is_Some (vault w !! Pending_Approval)
    ∧ is_Some (vault w !! Plans).
Proof.
  rewrite folders_passed_iff. unfold Verify.required_folders.
  rewrite <- Forall_forall, !Forall_cons, !init_creates.
  repeat (case_bool_decide as Hd; [|try (exfalso; apply Hd; set_solver)]);
    try (clear - Hd; exfalso; revert Hd; compute_done).
  all: split; [intros (?&?&?&?&?&?&?&?); done|].
  all: intros (?&?&?); repeat split; try done; try by eexists.
  all: apply Forall_nil_2.
Qed.
End Verify_folders.

Lemma verify_after_init_witness :
  (is_Some (vault Verify_examples.seeded !! Inbox)
   ∧ is_Some (vault Verify_examples.seeded !! Pending_Approval)
   ∧ is_Some (vault Verify_examples.seeded !! Plans))
  ∧ Verify.folders_passed
      (Orchestrator.init Examples.clock0 Verify_examples.seeded).1 = true.
Proof.
  assert (is_Some (vault Verify_examples.seeded !! Inbox)
          ∧ is_Some (vault Verify_examples.seeded !! Pending_Approval)
          ∧ is_Some (vault Verify_examples.seeded !! Plans)) as H
    by (repeat split; by eexists).
  split; [exact H|].
  by apply (proj2 (verify_after_init Examples.clock0 Verify_examples.seeded)).
Defined.

